(** * redaxios: configuration merging and the request pipeline

    A shallow embedding of [src/index.ts]: the recursive option merge
    [deepMerge] and the callable core [redaxios] built by [create].

    Conventions of the embedding.
    - JavaScript values are the inductive type [value].  Strings are
      sequences of 8-bit code units; [toLowerCase] maps the upper-case
      letters of that range (ASCII and Latin-1) as JavaScript does;
      [toUpperCase], which the source applies to the method name, maps
      the ASCII letters.
      Numbers are the safe integers (absolute value below 2^53), which
      [ToString] prints digit by digit.  Function values are references
      [VFun f] into the host's table of closures (see [Env]).
    - An object is the list of its own enumerable properties in insertion
      order, which is the order [for (i in o)] visits them.  ECMAScript
      visits canonical array-index names first; no lookup in a result
      depends on that reordering, and the reference serializers order
      their output with [js_order].  The [in] operator is modelled on own
      properties: for the names inherited from [Object.prototype] the
      source rebuilds a structurally equal copy of the override value, so
      results agree structurally.
    - Assigning the name [__proto__] on an ordinary object runs the
      setter of [Object.prototype] and creates no own property; the
      embedding has ordinary entries only.  The laws of the merge that
      speak of every key of a result are therefore stated for values that
      are [proto_free]: no object inside them has a property whose name
      [deepMerge] can fold to [__proto__].
    - Methods are called on receivers of the type [Options] declares
      ([url.replace] and [url.indexOf] on a string, [forEach] on an array,
      [toUpperCase] on a string); any other receiver is a [TypeError], as
      it is in JavaScript for a value that does not carry the method.
    - A promise is taken at its settlement; a synchronous exception and a
      rejected promise are distinct outcomes ([Throw] and [Rejected]).
    - The ambient platform (global [fetch], [JSON], [URLSearchParams],
      [document] with [RegExp] and [decodeURIComponent]) is the record
      [Env]; [Reference.node] is a platform to evaluate calls on. *)

From Stdlib Require Import String Ascii List ZArith Bool DecimalString.
Import ListNotations.
Open Scope string_scope.
Open Scope list_scope.

Notation "a ^^ b" := (String.append a b) (at level 60, right associativity).

(** ** Values *)

#[local] Set Warnings "-register-all".

Inductive value : Type :=
| VUndefined
| VNull
| VBool (b : bool)
| VNum (n : Z)
| VBigInt (n : Z)
| VStr (s : string)
| VFun (f : nat)
| VArr (elems : list value)
| VObj (props : list (string * value)).

Definition obj := list (string * value).

Definition typeof (v : value) : string :=
  match v with
  | VUndefined => "undefined"
  | VNull => "object"
  | VBool _ => "boolean"
  | VNum _ => "number"
  | VBigInt _ => "bigint"
  | VStr _ => "string"
  | VFun _ => "function"
  | VArr _ => "object"
  | VObj _ => "object"
  end.

(** ToBoolean. *)
Definition truthy (v : value) : bool :=
  match v with
  | VUndefined | VNull => false
  | VBool b => b
  | VNum n | VBigInt n => negb (n =? 0)%Z
  | VStr s => negb (s =? "")
  | VFun _ | VArr _ | VObj _ => true
  end.

(** [a || b] *)
Definition js_or (a b : value) : value := if truthy a then a else b.

Definition isArray (v : value) : bool :=
  match v with VArr _ => true | _ => false end.

(** [typeof v === 'object' && v !== null && !Array.isArray(v)] *)
Definition is_plain_object (v : value) : bool :=
  (typeof v =? "object") && negb (match v with VNull => true | _ => false end)
  && negb (isArray v).

(** ** Strings *)

(** The lower-case mapping of a code unit below 256: [A]-[Z], and the
    Latin-1 letters U+00C0-U+00DE but the multiplication sign U+00D7. *)
Definition lower_unit (c : ascii) : ascii :=
  let n := nat_of_ascii c in
  if ((65 <=? n)%nat && (n <=? 90)%nat)
     || ((192 <=? n)%nat && (n <=? 222)%nat && negb (n =? 215)%nat)
  then ascii_of_nat (n + 32) else c.

Definition upper_ascii (c : ascii) : ascii :=
  let n := nat_of_ascii c in
  if (97 <=? n)%nat && (n <=? 122)%nat then ascii_of_nat (n - 32) else c.

Fixpoint map_string (f : ascii -> ascii) (s : string) : string :=
  match s with
  | EmptyString => EmptyString
  | String c s' => String (f c) (map_string f s')
  end.

Definition toLowerCase : string -> string := map_string lower_unit.
Definition toUpperCase : string -> string := map_string upper_ascii.

(** The decimal numeral of an array index. *)
Definition index_key (n : nat) : string :=
  NilEmpty.string_of_uint (Nat.to_uint n).

(** ** Objects *)

Fixpoint lookup (k : string) (o : obj) : option value :=
  match o with
  | [] => None
  | (k', v) :: o' => if k' =? k then Some v else lookup k o'
  end.

(** [k in o] *)
Definition has_key (k : string) (o : obj) : bool :=
  match lookup k o with Some _ => true | None => false end.

(** [o[k]] read *)
Definition get_own (o : obj) (k : string) : value :=
  match lookup k o with Some v => v | None => VUndefined end.

(** [v.k] for the property names the pipeline reads (none of them is an
    array index or [length]); [v?.k] on [null] and [undefined]. *)
Definition prop (v : value) (k : string) : value :=
  match v with
  | VObj o => get_own o k
  | _ => VUndefined
  end.

(** [o[k] = v] *)
Fixpoint set_prop (o : obj) (k : string) (v : value) : obj :=
  match o with
  | [] => [(k, v)]
  | (k', v') :: o' =>
      if k' =? k then (k, v) :: o' else (k', v') :: set_prop o' k v
  end.

Definition keys (o : obj) : list string := map fst o.

Fixpoint indexed (n : nat) (l : list value) : obj :=
  match l with
  | [] => []
  | v :: l' => (index_key n, v) :: indexed (S n) l'
  end.

Fixpoint chars (s : string) : list value :=
  match s with
  | EmptyString => []
  | String c s' => VStr (String c EmptyString) :: chars s'
  end.

(** The (name, value) pairs visited by [for (i in v)] with [v[i]]. *)
Definition for_in (v : value) : obj :=
  match v with
  | VObj o => o
  | VArr l => indexed 0 l
  | VStr s => indexed 0 (chars s)
  | _ => []
  end.

(** ** deepMerge *)

(** [a.concat(x)]: an array argument is spread, anything else appended. *)
Definition concat (a : list value) (x : value) : list value :=
  match x with
  | VArr b => a ++ b
  | _ => a ++ [x]
  end.

(** [lowerCase ? i.toLowerCase() : i] *)
Definition fold_key (lowerCase : bool) (i : string) : string :=
  if lowerCase then toLowerCase i else i.

(** First loop: [for (i in opts) out[key] = opts[i]]. *)
Definition copy_props (lowerCase : bool) (opts : value) : obj :=
  fold_left (fun out iv => set_prop out (fold_key lowerCase (fst iv)) (snd iv))
            (for_in opts) [].

Fixpoint deepMerge (opts overrides : value) (lowerCase : bool)
  {struct overrides} : value :=
  match opts with
  | VArr a => VArr (concat a overrides)
  | _ =>
    let out0 := copy_props lowerCase opts in
    match overrides with
    | VObj o =>
      VObj ((fix loop (es : obj) (out : obj) {struct es} : obj :=
        match es with
        | [] => out
        | (i, value) :: es' =>
          let key := fold_key lowerCase i in
          loop es' (set_prop out key
            (if has_key key out && is_plain_object value
             then deepMerge (get_own out key) value (key =? "headers")
             else value))
        end) o out0)
    | VArr l =>
      VObj ((fix loop (n : nat) (es : list value) (out : obj) {struct es} : obj :=
        match es with
        | [] => out
        | value :: es' =>
          let key := fold_key lowerCase (index_key n) in
          loop (S n) es' (set_prop out key
            (if has_key key out && is_plain_object value
             then deepMerge (get_own out key) value (key =? "headers")
             else value))
        end) 0%nat l out0)
    | _ =>
      VObj (fold_left
              (fun out iv => set_prop out (fold_key lowerCase (fst iv)) (snd iv))
              (for_in overrides) out0)
    end
  end.

(** One iteration of the second loop of [deepMerge], and the loop itself;
    [deepMerge_obj] shows that [deepMerge] runs exactly these. *)
Definition assign (lowerCase : bool) (out : obj) (i : string) (value : value) : obj :=
  let key := fold_key lowerCase i in
  set_prop out key
    (if has_key key out && is_plain_object value
     then deepMerge (get_own out key) value (key =? "headers")
     else value).

Fixpoint merge_props (lowerCase : bool) (es : obj) (out : obj) : obj :=
  match es with
  | [] => out
  | (i, value) :: es' => merge_props lowerCase es' (assign lowerCase out i value)
  end.

(** A loop of plain assignments [out[key] = value]. *)
Definition put_all (lowerCase : bool) (es : obj) (out : obj) : obj :=
  fold_left (fun out iv => set_prop out (fold_key lowerCase (fst iv)) (snd iv)) es out.

(** The value the last entry of [es] named [k] (after folding) holds. *)
Fixpoint lookup_folded (lowerCase : bool) (k : string) (es : obj) : option value :=
  match es with
  | [] => None
  | (i, v) :: es' =>
      match lookup_folded lowerCase k es' with
      | Some w => Some w
      | None => if fold_key lowerCase i =? k then Some v else None
      end
  end.

(** Headers as the type [RequestHeaders] has them: names to strings. *)
Definition header_mapping : Type := list (string * string).

Definition header_props (h : header_mapping) : obj :=
  map (fun kv => (fst kv, VStr (snd kv))) h.

Definition headers_value (h : header_mapping) : value := VObj (header_props h).

(** The value a header mapping holds for [name], compared
    case-insensitively (the last such entry). *)
Fixpoint lookup_ci (name : string) (h : header_mapping) : option string :=
  match h with
  | [] => None
  | (k, v) :: h' =>
      match lookup_ci name h' with
      | Some w => Some w
      | None => if toLowerCase k =? toLowerCase name then Some v else None
      end
  end.

Definition disjoint_keys (a b : obj) : Prop :=
  forall k, In k (keys a) -> ~ In k (keys b).

(** No object inside [v] has a property whose name is, or folds to,
    [__proto__]: the values on which an assignment [out[key] = value] of
    [deepMerge] always creates or updates an own property. *)
Fixpoint proto_free (v : value) : bool :=
  match v with
  | VObj o =>
      (fix props (o : obj) : bool :=
         match o with
         | [] => true
         | (k, x) :: o' =>
             negb (toLowerCase k =? "__proto__") && proto_free x && props o'
         end) o
  | VArr l =>
      (fix elems (l : list value) : bool :=
         match l with
         | [] => true
         | x :: l' => proto_free x && elems l'
         end) l
  | _ => true
  end.

(** ** Coercions and string helpers *)

Definition string_of_Z (n : Z) : string := NilZero.string_of_int (Z.to_int n).

Fixpoint join (sep : string) (l : list string) : string :=
  match l with
  | [] => ""
  | [x] => x
  | x :: l' => x ^^ sep ^^ join sep l'
  end.

(** ToString.  Plain objects print as [[object Object]]; host closures
    print the way native functions do. *)
Fixpoint ToString (v : value) : string :=
  match v with
  | VUndefined => "undefined"
  | VNull => "null"
  | VBool true => "true"
  | VBool false => "false"
  | VNum n | VBigInt n => string_of_Z n
  | VStr s => s
  | VFun _ => "function () { [native code] }"
  | VArr l =>
      join "," (map (fun x => match x with
                              | VUndefined | VNull => ""
                              | _ => ToString x
                              end) l)
  | VObj _ => "[object Object]"
  end.

(** [~s.indexOf(c)]: does [c] occur in [s]? *)
Fixpoint contains_char (c : ascii) (s : string) : bool :=
  match s with
  | EmptyString => false
  | String a s' => (a =? c)%char || contains_char c s'
  end.

(** [.] in a regular expression without the [s] flag: any code unit
    but a line terminator. *)
Definition is_line_terminator (c : ascii) : bool :=
  (c =? "010")%char || (c =? "013")%char.

(** Does [/.*\/\//] match at the start of [s]?  ([.*] cannot cross a line
    terminator.) *)
Fixpoint lookahead_dslash (s : string) : bool :=
  match s with
  | EmptyString => false
  | String a t =>
      match t with
      | String b _ =>
          if (a =? "/")%char && (b =? "/")%char then true
          else if is_line_terminator a then false
          else lookahead_dslash t
      | EmptyString => false
      end
  end.

(** GetSubstitution for a pattern without capture groups matched at
    position 0: in the replacement text [$$] stands for [$], [$&] for the
    matched text, [$`] for the (empty) text before the match and [$'] for
    the text after it; every other [$] is literal. *)
Fixpoint GetSubstitution (matched rest : string) (r : string) : string :=
  match r with
  | EmptyString => EmptyString
  | String a t =>
      if (a =? "$")%char then
        match t with
        | String c r' =>
            if (c =? "$")%char then String "$" (GetSubstitution matched rest r')
            else if (c =? "&")%char then matched ^^ GetSubstitution matched rest r'
            else if (c =? "`")%char then GetSubstitution matched rest r'
            else if (c =? "'")%char then rest ^^ GetSubstitution matched rest r'
            else String a (GetSubstitution matched rest t)
        | EmptyString => String a EmptyString
        end
      else String a (GetSubstitution matched rest t)
  end.

(** [url.replace(/^(?!.*\/\/)\/?/, replacement)] *)
Definition replace_base (url replacement : string) : string :=
  if lookahead_dslash url then url
  else
    match url with
    | String "/" rest => GetSubstitution "/" rest replacement ^^ rest
    | _ => GetSubstitution "" url replacement ^^ url
    end.

(** ** Completions, promises and the platform *)

(** The outcome of evaluating synchronous code. *)
Inductive completion (A : Type) : Type :=
| Normal (a : A)
| Throw (e : value).
Arguments Normal {A} a.
Arguments Throw {A} e.

Definition bind {A B} (c : completion A) (k : A -> completion B) : completion B :=
  match c with
  | Normal a => k a
  | Throw e => Throw e
  end.

Notation "x <- c ;; k" := (bind c (fun x => k))
  (at level 61, c at next level, right associativity).

(** A promise, taken at its settlement. *)
Inductive settled : Type :=
| Fulfilled (v : value)
| Rejected (v : value).

Definition TypeError : value := VObj [("name", VStr "TypeError")].

(** What the pipeline uses once a [document] is there. *)
Record Document : Type := {
  cookie : value;
  (** [subject.match(RegExp(pattern))]: the match array, or [null] *)
  RegExp_match : value -> string -> completion (option (list value));
  decodeURIComponent : value -> completion value
}.

(** The platform the library runs on.  [call f args] runs the host closure
    [f]; [call_async f args] runs one that returns a promise (or throws
    before returning it). *)
Record Env : Type := {
  call : nat -> list value -> completion value;
  call_async : nat -> list value -> completion settled;
  (** the global [fetch] *)
  fetch : value;
  JSON_stringify : value -> completion value;
  JSON_parse : value -> completion value;
  (** [new URLSearchParams(init).toString()] *)
  URLSearchParams_toString : value -> completion string;
  (** present when [typeof document !== 'undefined'] *)
  document : option Document
}.

(** ** The request pipeline *)

Section Pipeline.

Variable env : Env.

(** [f(args)] *)
Definition apply (f : value) (args : list value) : completion value :=
  match f with
  | VFun n => call env n args
  | _ => Throw TypeError
  end.

(** [f(args)] for a function returning a promise *)
Definition apply_async (f : value) (args : list value) : completion settled :=
  match f with
  | VFun n => call_async env n args
  | _ => Throw TypeError
  end.

(** [v.k] where [v] may be [null] or [undefined] *)
Definition member (v : value) (k : string) : completion value :=
  match v with
  | VUndefined | VNull => Throw TypeError
  | _ => Normal (prop v k)
  end.

(** [(options.transformRequest || []).forEach((f) => { data = f(data, options.headers) || data; })] *)
Fixpoint run_transforms (fs : list value) (headers data : value) : completion value :=
  match fs with
  | [] => Normal data
  | f :: fs' =>
      r <- apply f [data; headers] ;;
      run_transforms fs' headers (js_or r data)
  end.

Definition transformRequest (options data : value) : completion value :=
  match js_or (prop options "transformRequest") (VArr []) with
  | VArr fs => run_transforms fs (prop options "headers") data
  | _ => Throw TypeError
  end.

(** The [try { ... } catch (e) { }] block reading the XSRF cookie. *)
Definition xsrf (options : value) (customHeaders : obj) : obj :=
  if truthy (prop options "xsrfCookieName") && truthy (prop options "xsrfHeaderName") then
    match document env with
    | Some doc =>
        match RegExp_match doc (cookie doc)
                ("(^|; )" ^^ ToString (prop options "xsrfCookieName") ^^ "=([^;]*)") with
        | Normal (Some m) =>
            match decodeURIComponent doc (nth 2 m VUndefined) with
            | Normal token =>
                set_prop customHeaders (ToString (prop options "xsrfHeaderName")) token
            | Throw _ => customHeaders
            end
        | _ => customHeaders
        end
    | None => customHeaders
    end
  else customHeaders.

(** [if (options.baseURL) url = url.replace(..., options.baseURL + '/')] *)
Definition compose_base (options url : value) : completion value :=
  if truthy (prop options "baseURL") then
    match url with
    | VStr u => Normal (VStr (replace_base u (ToString (prop options "baseURL") ^^ "/")))
    | _ => Throw TypeError
    end
  else Normal url.

(** [options.paramsSerializer ? options.paramsSerializer(options.params)
     : new URLSearchParams(options.params).toString()], as the string that
    [+] appends. *)
Definition serialize_params (options : value) : completion string :=
  if truthy (prop options "paramsSerializer")
  then r <- apply (prop options "paramsSerializer") [prop options "params"] ;;
       Normal (ToString r)
  else URLSearchParams_toString env (prop options "params").

(** [if (options.params) url += (~url.indexOf('?') ? '&' : '?') + (...)] *)
Definition compose_query (options url : value) : completion value :=
  if truthy (prop options "params") then
    match url with
    | VStr u =>
        let sep := if contains_char "?" u then "&" else "?" in
        q <- serialize_params options ;;
        Normal (VStr (u ^^ sep ^^ q))
    | _ => Throw TypeError
    end
  else Normal url.

(** [deepMerge(options.headers || {}, customHeaders, true)] *)
Definition finalize_headers (options : value) (customHeaders : obj) : value :=
  deepMerge (js_or (prop options "headers") (VObj [])) (VObj customHeaders) true.

(** The request descriptor handed to the transport. *)
Definition RequestInit (options _method data : value) (customHeaders : obj)
  : completion value :=
  match js_or _method (js_or (prop options "method") (VStr "get")) with
  | VStr m =>
      Normal (VObj [
        ("method", VStr (toUpperCase m));
        ("body", data);
        ("headers", finalize_headers options customHeaders);
        ("credentials", if truthy (prop options "withCredentials") then VStr "include" else VUndefined)])
  | _ => Throw TypeError
  end.

(** What the synchronous part of a call leaves for the transport. *)
Record prepared : Type := {
  req_fetch : value;
  req_url : value;
  req_init : value;
  req_options : value;
  req_response : obj
}.

(** Argument normalization: [config] and [url] after the first [if]. *)
Definition call_config (urlOrConfig config : value) : value :=
  if negb (typeof urlOrConfig =? "string") then urlOrConfig else config.

Definition call_url (urlOrConfig config : value) : value :=
  if negb (typeof urlOrConfig =? "string")
  then js_or (prop (call_config urlOrConfig config) "url") (VStr "")
  else urlOrConfig.

(** [deepMerge(defaults, config || {})] *)
Definition resolve (defaults config : value) : value :=
  deepMerge defaults (js_or config (VObj [])) false.

(** [data && typeof data === 'object' && typeof data.append !== 'function'
     && typeof data.text !== 'function'] *)
Definition json_body (data : value) : bool :=
  truthy data && (typeof data =? "object")
  && negb (typeof (prop data "append") =? "function")
  && negb (typeof (prop data "text") =? "function").

(** [if (data && ...) { data = JSON.stringify(data);
     customHeaders['content-type'] = 'application/json'; }] *)
Definition encode_json (data : value) (customHeaders : obj) : completion (value * obj) :=
  if json_body data
  then s <- JSON_stringify env data ;;
       Normal (s, set_prop customHeaders "content-type" (VStr "application/json"))
  else Normal (data, customHeaders).

(** [customHeaders] after [if (options.auth) customHeaders.authorization = options.auth]. *)
Definition auth_headers (options : value) : obj :=
  if truthy (prop options "auth")
  then set_prop [] "authorization" (prop options "auth")
  else [].

(** The body of [redaxios] up to the transport call. *)
Definition prepare (defaults urlOrConfig config _method data : value)
  : completion prepared :=
  let url := call_url urlOrConfig config in
  let config := call_config urlOrConfig config in
  let response := [("config", js_or config (VObj []))] in
  let options := resolve defaults config in
  let data := js_or data (prop options "data") in
  data <- transformRequest options data ;;
  let customHeaders := auth_headers options in
  dh <- encode_json data customHeaders ;;
  let data := fst dh in
  let customHeaders := xsrf options (snd dh) in
  url <- compose_base options url ;;
  url <- compose_query options url ;;
  let fetchFunc := js_or (prop options "fetch") (fetch env) in
  init <- RequestInit options _method data customHeaders ;;
  Normal {| req_fetch := fetchFunc; req_url := url; req_init := init;
            req_options := options; req_response := response |}.

(** [for (const i in res) if (typeof res[i] !== 'function') response[i] = res[i]] *)
Definition copy_raw (res : value) (response : obj) : obj :=
  fold_left (fun r iv => if typeof (snd iv) =? "function" then r
                         else set_prop r (fst iv) (snd iv))
            (for_in res) response.

(** [options.validateStatus ? options.validateStatus(res.status) : res.ok] *)
Definition success_predicate (options res : value) : completion value :=
  if truthy (prop options "validateStatus")
  then status <- member res "status" ;;
       apply (prop options "validateStatus") [status]
  else member res "ok".

(** The last [.then]: status validation and settlement. *)
Definition validate (options res : value) (response : obj) : settled :=
  match success_predicate options res with
  | Normal ok => if truthy ok then Fulfilled (VObj response) else Rejected (VObj response)
  | Throw e => Rejected e
  end.

(** The [.then((data) => { ... }).catch(() => { })] after the decode
    method: the decoded value is stored, then its JSON parse when that
    succeeds; a rejected decode leaves the response as it is. *)
Definition store_data (decoded : settled) (response : obj) : obj :=
  match decoded with
  | Fulfilled data =>
      let response := set_prop response "data" data in
      match JSON_parse env data with
      | Normal parsed => set_prop response "data" parsed
      | Throw _ => response
      end
  | Rejected _ => response
  end.

(** [res[responseType]()] with [responseType = options.responseType || 'text'] *)
Definition decode (options res : value) : completion settled :=
  m <- member res (ToString (js_or (prop options "responseType") (VStr "text"))) ;;
  apply_async m [].

(** [options.responseType === 'stream'] *)
Definition is_stream (options : value) : bool :=
  match prop options "responseType" with
  | VStr t => t =? "stream"
  | _ => false
  end.

(** The callback given to the transport's promise. *)
Definition on_response (options : value) (response : obj) (res : value) : settled :=
  let response := copy_raw res response in
  if is_stream options then
    match member res "body" with
    | Normal body => Fulfilled (VObj (set_prop response "data" body))
    | Throw e => Rejected e
    end
  else
    match decode options res with
    | Throw e => Rejected e
    | Normal decoded => validate options res (store_data decoded response)
    end.

(** A transport invocation: callee, URL and request descriptor. *)
Definition invocation : Type := (value * value * value)%type.

(** A call's observable behaviour: the transport invocations it made, and
    either a synchronous exception ([Throw]) or the returned promise. *)
Definition behaviour : Type := (list invocation * completion settled)%type.

(** [redaxios(urlOrConfig, config, _method, data)] on an instance whose
    defaults are [defaults]. *)
Definition redaxios (defaults urlOrConfig config _method data : value) : behaviour :=
  match prepare defaults urlOrConfig config _method data with
  | Throw e => ([], Throw e)
  | Normal rq =>
      match req_fetch rq with
      | VFun f =>
          ([(req_fetch rq, req_url rq, req_init rq)],
           match call_async env f [req_url rq; req_init rq] with
           | Throw e => Throw e
           | Normal (Rejected e) => Normal (Rejected e)
           | Normal (Fulfilled res) =>
               Normal (on_response (req_options rq) (req_response rq) res)
           end)
      | _ => ([], Throw TypeError)
      end
  end.

End Pipeline.

(** [create(defaults)]: the instance is its callable core closed over
    [defaults || {}]; [redaxios.defaults] is that same object. *)
Definition create (env : Env) (defaults : value) :=
  redaxios env (js_or defaults (VObj [])).

(** The convenience methods of an instance. *)
Module Methods.
Section Bound.
Variables (env : Env) (defaults : value).
Let instance := create env defaults.

Definition request := instance.
Definition get (url config : value) := instance url config (VStr "get") VUndefined.
Definition delete (url config : value) := instance url config (VStr "delete") VUndefined.
Definition head (url config : value) := instance url config (VStr "head") VUndefined.
Definition options (url config : value) := instance url config (VStr "options") VUndefined.
Definition post (url data config : value) := instance url config (VStr "post") data.
Definition put (url data config : value) := instance url config (VStr "put") data.
Definition patch (url data config : value) := instance url config (VStr "patch") data.
End Bound.
End Methods.

(** ** A reference platform *)

Module Reference.

(** The order in which ECMAScript lists the own property names of an
    ordinary object: canonical array indices (the decimal numerals of the
    integers below 2^32 - 1) ascending, then the other names in insertion
    order. *)
Definition digit_value (c : ascii) : option N :=
  let n := nat_of_ascii c in
  if ((48 <=? n) && (n <=? 57))%nat then Some (N.of_nat (n - 48)) else None.

Fixpoint index_digits (s : string) (acc : N) : option N :=
  match s with
  | EmptyString => Some acc
  | String c s' =>
      match digit_value c with
      | Some d => index_digits s' (10 * acc + d)%N
      | None => None
      end
  end.

Definition array_index (k : string) : option N :=
  match k with
  | EmptyString => None
  | String c r =>
      if (c =? "0")%char && negb (r =? "") then None
      else match index_digits k 0%N with
           | Some n => if (n <? 4294967295)%N then Some n else None
           | None => None
           end
  end.

Fixpoint insert_index {A : Type} (n : N) (e : string * A)
  (l : list (N * (string * A))) : list (N * (string * A)) :=
  match l with
  | [] => [(n, e)]
  | (m, e') :: l' =>
      if (n <? m)%N then (n, e) :: l else (m, e') :: insert_index n e l'
  end.

Definition js_order {A : Type} (l : list (string * A)) : list (string * A) :=
  map snd (fold_left (fun acc e => match array_index (fst e) with
                                   | Some n => insert_index n e acc
                                   | None => acc
                                   end) l [])
  ++ filter (fun e => match array_index (fst e) with
                      | Some _ => false
                      | None => true
                      end) l.

Definition dquote : ascii := "034"%char.

Definition hex_digit (upper : bool) (n : nat) : ascii :=
  nth n (list_ascii_of_string
           (if upper then "0123456789ABCDEF" else "0123456789abcdef")) "0"%char.

Definition hex2 (upper : bool) (n : nat) : string :=
  String (hex_digit upper (n / 16)) (String (hex_digit upper (n mod 16)) "").

(** QuoteJSONString *)
Definition quote_char (c : ascii) : string :=
  let n := nat_of_ascii c in
  if (c =? dquote)%char then String "\" (String dquote "")
  else if (c =? "\")%char then "\\"
  else if (n =? 8)%nat then "\b"
  else if (n =? 9)%nat then "\t"
  else if (n =? 10)%nat then "\n"
  else if (n =? 12)%nat then "\f"
  else if (n =? 13)%nat then "\r"
  else if (n <? 32)%nat then "\u00" ^^ hex2 false n
  else String c "".

Fixpoint quote_body (s : string) : string :=
  match s with
  | EmptyString => ""
  | String c s' => quote_char c ^^ quote_body s'
  end.

Definition QuoteJSONString (s : string) : string :=
  String dquote (quote_body s ^^ String dquote "").

(** SerializeJSONProperty, without [toJSON] methods, replacers and
    indentation: [None] is [undefined]. *)
Fixpoint SerializeJSONProperty (v : value) : completion (option string) :=
  match v with
  | VUndefined | VFun _ => Normal None
  | VNull => Normal (Some "null")
  | VBool true => Normal (Some "true")
  | VBool false => Normal (Some "false")
  | VNum n => Normal (Some (string_of_Z n))
  | VBigInt _ => Throw TypeError
  | VStr s => Normal (Some (QuoteJSONString s))
  | VArr l =>
      parts <- (fix elements (l : list value) : completion (list string) :=
                  match l with
                  | [] => Normal []
                  | x :: l' =>
                      p <- SerializeJSONProperty x ;;
                      ps <- elements l' ;;
                      Normal (match p with Some t => t | None => "null" end :: ps)
                  end) l ;;
      Normal (Some ("[" ^^ join "," parts ^^ "]"))
  | VObj o =>
      parts <- (fix members (o : obj) : completion (list (string * string)) :=
                  match o with
                  | [] => Normal []
                  | (k, x) :: o' =>
                      p <- SerializeJSONProperty x ;;
                      ps <- members o' ;;
                      Normal (match p with
                              | Some t => (k, t) :: ps
                              | None => ps
                              end)
                  end) o ;;
      Normal (Some ("{" ^^ join "," (map (fun kt => QuoteJSONString (fst kt) ^^ ":" ^^ snd kt)
                                         (js_order parts)) ^^ "}"))
  end.

Definition stringify (v : value) : completion value :=
  r <- SerializeJSONProperty v ;;
  Normal (match r with Some t => VStr t | None => VUndefined end).

(** The application/x-www-form-urlencoded byte serializer, on the UTF-8
    encoding of a code unit below 256. *)
Definition urlencode_byte (n : nat) : string :=
  if ((48 <=? n) && (n <=? 57) || (65 <=? n) && (n <=? 90) || (97 <=? n) && (n <=? 122)
      || (n =? 42) || (n =? 45) || (n =? 46) || (n =? 95))%nat
  then String (ascii_of_nat n) ""
  else if (n =? 32)%nat then "+"
  else "%" ^^ hex2 true n.

Definition urlencode_char (c : ascii) : string :=
  let n := nat_of_ascii c in
  if (n <? 128)%nat then urlencode_byte n
  else urlencode_byte (192 + n / 64) ^^ urlencode_byte (128 + n mod 64).

Fixpoint urlencode (s : string) : string :=
  match s with
  | EmptyString => ""
  | String c s' => urlencode_char c ^^ urlencode s'
  end.

(** [new URLSearchParams(init).toString()] for a record initialiser (a
    plain object); string and sequence initialisers are not part of this
    reference platform. *)
Definition search_params (init : value) : completion string :=
  match init with
  | VObj o =>
      Normal (join "&" (map (fun kv => urlencode (fst kv) ^^ "=" ^^ urlencode (ToString (snd kv)))
                            (js_order o)))
  | _ => Throw TypeError
  end.

(** [JSON.parse] on the texts whose values the model has: integers in the
    safe range, read digit by digit, and strings of code units below 256.
    Numbers with a fraction or an exponent and escapes above code unit
    255 are outside this reference platform, which rejects them. *)
Definition is_ws (c : ascii) : bool :=
  let n := nat_of_ascii c in
  ((n =? 32) || (n =? 9) || (n =? 10) || (n =? 13))%nat.

Fixpoint skip_ws (s : string) : string :=
  match s with
  | String c s' => if is_ws c then skip_ws s' else s
  | EmptyString => s
  end.

Definition digit_of (c : ascii) : option Z :=
  let n := nat_of_ascii c in
  if ((48 <=? n) && (n <=? 57))%nat then Some (Z.of_nat (n - 48)) else None.

Definition hex_of (c : ascii) : option nat :=
  let n := nat_of_ascii c in
  if ((48 <=? n) && (n <=? 57))%nat then Some (n - 48)%nat
  else if ((65 <=? n) && (n <=? 70))%nat then Some (n - 55)%nat
  else if ((97 <=? n) && (n <=? 102))%nat then Some (n - 87)%nat
  else None.

Fixpoint parse_digits (acc : Z) (s : string) : Z * string :=
  match s with
  | String c s' =>
      match digit_of c with
      | Some d => parse_digits (acc * 10 + d) s'
      | None => (acc, s)
      end
  | EmptyString => (acc, s)
  end.

Definition parse_number (s : string) : option (value * string) :=
  let (neg, s1) := match s with
                   | String "-" r => (true, r)
                   | _ => (false, s)
                   end in
  match s1 with
  | String c r =>
      match digit_of c with
      | Some d =>
          let (n, rest) := if (d =? 0)%Z then (0%Z, r) else parse_digits d r in
          match rest with
          | String c' _ =>
              if ((c' =? ".") || (c' =? "e") || (c' =? "E"))%char then None
              else Some (VNum (if neg then - n else n), rest)
          | EmptyString => Some (VNum (if neg then - n else n), rest)
          end
      | None => None
      end
  | EmptyString => None
  end.

(** The characters of a string literal after its opening quote. *)
Fixpoint parse_string (s : string) : option (string * string) :=
  match s with
  | EmptyString => None
  | String c r =>
      if (c =? dquote)%char then Some ("", r)
      else if (c =? "\")%char then
        match r with
        | String e r' =>
            let simple (x : ascii) :=
              match parse_string r' with
              | Some (t, rest) => Some (String x t, rest)
              | None => None
              end in
            if ((e =? dquote) || (e =? "\") || (e =? "/"))%char then simple e
            else if (e =? "b")%char then simple "008"%char
            else if (e =? "f")%char then simple "012"%char
            else if (e =? "n")%char then simple "010"%char
            else if (e =? "r")%char then simple "013"%char
            else if (e =? "t")%char then simple "009"%char
            else if (e =? "u")%char then
              match r' with
              | String h1 (String h2 (String h3 (String h4 r''))) =>
                  match hex_of h1, hex_of h2, hex_of h3, hex_of h4, parse_string r'' with
                  | Some 0%nat, Some 0%nat, Some a, Some b, Some (t, rest) =>
                      Some (String (ascii_of_nat (16 * a + b)) t, rest)
                  | _, _, _, _, _ => None
                  end
              | _ => None
              end
            else None
        | EmptyString => None
        end
      else if (nat_of_ascii c <? 32)%nat then None
      else match parse_string r with
           | Some (t, rest) => Some (String c t, rest)
           | None => None
           end
  end.

Definition literal (word : string) (v : value) (s : string) : option (value * string) :=
  if prefix word s then Some (v, substring (String.length word) (String.length s - String.length word) s)
  else None.

Fixpoint parse_value (fuel : nat) (s : string) : option (value * string) :=
  match fuel with
  | O => None
  | S fuel' =>
    match skip_ws s with
    | EmptyString => None
    | String c r as s0 =>
      if (c =? "[")%char then
        match skip_ws r with
        | String "]" r' => Some (VArr [], r')
        | _ =>
          (fix elements (n : nat) (s : string) (acc : list value) :=
             match n with
             | O => None
             | S n' =>
               match parse_value fuel' s with
               | Some (v, s1) =>
                 match skip_ws s1 with
                 | String "," s2 => elements n' s2 (acc ++ [v])
                 | String "]" s2 => Some (VArr (acc ++ [v]), s2)
                 | _ => None
                 end
               | None => None
               end
             end) fuel' r []
        end
      else if (c =? "{")%char then
        match skip_ws r with
        | String "}" r' => Some (VObj [], r')
        | _ =>
          (fix members (n : nat) (s : string) (acc : obj) :=
             match n with
             | O => None
             | S n' =>
               match skip_ws s with
               | String q s1 =>
                 if (q =? dquote)%char then
                   match parse_string s1 with
                   | Some (k, s2) =>
                     match skip_ws s2 with
                     | String ":" s3 =>
                       match parse_value fuel' s3 with
                       | Some (v, s4) =>
                         match skip_ws s4 with
                         | String "," s5 => members n' s5 (set_prop acc k v)
                         | String "}" s5 => Some (VObj (set_prop acc k v), s5)
                         | _ => None
                         end
                       | None => None
                       end
                     | _ => None
                     end
                   | None => None
                   end
                 else None
               | EmptyString => None
               end
             end) fuel' r []
        end
      else if (c =? dquote)%char then
        match parse_string r with
        | Some (t, rest) => Some (VStr t, rest)
        | None => None
        end
      else if (c =? "t")%char then literal "true" (VBool true) s0
      else if (c =? "f")%char then literal "false" (VBool false) s0
      else if (c =? "n")%char then literal "null" VNull s0
      else parse_number s0
    end
  end.

Definition SyntaxError : value := VObj [("name", VStr "SyntaxError")].

Definition parse (v : value) : completion value :=
  let text := ToString v in
  match parse_value (S (String.length text)) text with
  | Some (r, rest) =>
      match skip_ws rest with
      | EmptyString => Normal r
      | _ => Throw SyntaxError
      end
  | None => Throw SyntaxError
  end.

(** A table of host closures: the entry of [f], or a [TypeError]. *)
Fixpoint table {R : Type} (t : list (nat * (list value -> completion R)))
  (f : nat) (args : list value) : completion R :=
  match t with
  | [] => Throw TypeError
  | (g, body) :: t' => if (g =? f)%nat then body args else table t' f args
  end.

(** A platform without a [document], with the closures of [sync] and
    [async]; the global [fetch] is closure 0. *)
Definition node (sync : list (nat * (list value -> completion value)))
  (async : list (nat * (list value -> completion settled))) : Env :=
  {| call := table sync;
     call_async := table async;
     fetch := VFun 0;
     JSON_stringify := stringify;
     JSON_parse := parse;
     URLSearchParams_toString := search_params;
     document := None |}.

End Reference.

(** ** Observations and the wording of the specification *)

(** The URLs and the bodies a call handed to the transport. *)
Definition dispatched_urls (b : behaviour) : list value :=
  map (fun inv => snd (fst inv)) (fst b).

Definition dispatched_bodies (b : behaviour) : list value :=
  map (fun inv => prop (snd inv) "body") (fst b).

(** The specification's reading of the base-URL rule: [//] anywhere in
    the URL, and at most one leading slash removed. *)
Fixpoint contains_dslash (s : string) : bool :=
  match s with
  | EmptyString => false
  | String a t =>
      match t with
      | String b _ => (a =? "/")%char && (b =? "/")%char || contains_dslash t
      | EmptyString => false
      end
  end.

Definition strip_slash (s : string) : string :=
  match s with
  | String "/" rest => rest
  | _ => s
  end.

Definition spec_base_url (baseURL url : string) : string :=
  if contains_dslash url then url else baseURL ^^ "/" ^^ strip_slash url.

Fixpoint no_line_terminator (s : string) : bool :=
  match s with
  | EmptyString => true
  | String c s' => negb (is_line_terminator c) && no_line_terminator s'
  end.

(** ** Sample configurations and servers *)

Module Samples.

Definition defaults_chain : obj := [("transformRequest", VArr [VFun 1])].
Definition call_chain : obj := [("transformRequest", VArr [VFun 2])].

Definition base_Headers : obj := [("Headers", VObj [("A", VNum 1)])].
Definition over_Headers : obj := [("Headers", VObj [("a", VNum 2)])].

Definition only_baseURL : obj := [("baseURL", VStr "https://api.example")].
Definition only_method : obj := [("method", VStr "post"); ("auth", VStr "token")].

Definition caller_headers : header_mapping :=
  [("Content-Type", "text/plain"); ("X-Custom-Header", "my-custom-value")].
Definition computed_headers : header_mapping :=
  [("authorization", "token"); ("content-type", "application/json")].

Definition caller_props : obj := header_props caller_headers.
Definition computed_props : obj := header_props computed_headers.

(** Two spellings of one name that differ in the case of U+00C9. *)
Definition latin1_headers : header_mapping :=
  [(String (ascii_of_nat 201) "tag", "upper");
   (String (ascii_of_nat 233) "tag", "lower")].

(** [new Headers({'X-Custom-Header': 'my-custom-value'})] as [for (i in
    h)] and [h[i]] see it: the header list of a [Headers] instance is
    internal, and the enumerable properties the loop visits are the
    operations of the interface, inherited from the prototype. *)
Definition Headers_instance : value :=
  VObj [("append", VFun 20); ("delete", VFun 21); ("get", VFun 22);
        ("getSetCookie", VFun 23); ("has", VFun 24); ("set", VFun 25);
        ("entries", VFun 26); ("forEach", VFun 27); ("keys", VFun 28);
        ("values", VFun 29)].

(** A raw transport response; its [text] method is closure 1. *)
Definition raw (status : Z) (statusText : string) : value :=
  VObj [("status", VNum status);
        ("statusText", VStr statusText);
        ("ok", VBool ((200 <=? status)%Z && (status <=? 299)%Z));
        ("body", VObj [("locked", VBool false)]);
        ("bodyUsed", VBool false);
        ("text", VFun 1)].

(** [(s) => s < 500], closure 2. *)
Definition below_500 (args : list value) : completion value :=
  match args with
  | VNum s :: _ => Normal (VBool (s <? 500)%Z)
  | _ => Normal (VBool false)
  end.

(** A stub transport answering every request with [status] and the body
    text [text]. *)
Definition server (status : Z) (statusText text : string) : Env :=
  Reference.node
    [(2%nat, below_500)]
    [(0%nat, fun _ => Normal (Fulfilled (raw status statusText)));
     (1%nat, fun _ => Normal (Fulfilled (VStr text)))].

(** The text [{"id":1}]. *)
Definition json_id_1 : string :=
  "{" ^^ String Reference.dquote "id" ^^ String Reference.dquote ":1}".

(** The text [{"title":"t"}]. *)
Definition json_title_t : string :=
  "{" ^^ String Reference.dquote "title" ^^ String Reference.dquote ":"
  ^^ String Reference.dquote "t" ^^ String Reference.dquote "}".

Definition server_404 : Env := server 404 "Not Found" "Not Found".
Definition server_200 : Env := server 200 "OK" "[1]".

Definition get_init : value :=
  VObj [("method", VStr "GET"); ("body", VUndefined);
        ("headers", VObj []); ("credentials", VUndefined)].

Definition post_init : value :=
  VObj [("method", VStr "POST"); ("body", VStr "fallback");
        ("headers", VObj []); ("credentials", VUndefined)].

Definition q_x : value := VObj [("params", VObj [("q", VStr "x")])].

Definition config_posts_1 : value := VObj [("url", VStr "/posts/1")].
Definition config_ignored : value :=
  VObj [("url", VStr "/ignored"); ("method", VStr "delete")].

End Samples.

(** [customHeaders] before the XSRF step, for the body the transforms
    left. *)
Definition custom_headers (options body : value) : obj :=
  if json_body body
  then set_prop (auth_headers options) "content-type" (VStr "application/json")
  else auth_headers options.

(** A run of the request transforms, as seen from outside: [returned env
    h d fs rs] says that the transforms [fs], called one after the other
    with the configured headers [h], returned the values [rs], each being
    called with the body its predecessors left, [d] at the start. *)
Fixpoint returned (env : Env) (h d : value) (fs rs : list value) : Prop :=
  match fs, rs with
  | [], [] => True
  | f :: fs', r :: rs' =>
      apply env f [d; h] = Normal r
      /\ returned env h (if truthy r then r else d) fs' rs'
  | _, _ => False
  end.

(** The last truthy value among [rs], or [d] when there is none. *)
Definition last_truthy (d : value) (rs : list value) : value :=
  fold_left (fun b r => if truthy r then r else b) rs d.

(** ** A browser document *)

(** Has [s] a lower-case ASCII letter? *)
Fixpoint has_lower_ascii (s : string) : bool :=
  match s with
  | EmptyString => false
  | String c s' =>
      let n := nat_of_ascii c in
      ((97 <=? n)%nat && (n <=? 122)%nat) || has_lower_ascii s'
  end.

(** Has [s] an upper-case ASCII letter? *)
Fixpoint has_upper_ascii (s : string) : bool :=
  match s with
  | EmptyString => false
  | String c s' =>
      let n := nat_of_ascii c in
      ((65 <=? n)%nat && (n <=? 90)%nat) || has_upper_ascii s'
  end.

Module Browser.

(** The text after the prefix [p] of [s]. *)
Definition after (p s : string) : option string :=
  if prefix p s
  then Some (substring (String.length p) (String.length s - String.length p) s)
  else None.

(** The cookie name inside the pattern the pipeline builds: a group for
    the start or a separator, the name, [=], a group for the value. *)
Definition pattern_name (pattern : string) : option string :=
  match after "(^|; )" pattern with
  | Some rest =>
      let n := (String.length rest - 8)%nat in
      if substring n 8 rest =? "=([^;]*)" then Some (substring 0 n rest) else None
  | None => None
  end.

(** A name that a regular expression reads literally. *)
Fixpoint literal_name (s : string) : bool :=
  match s with
  | EmptyString => true
  | String c s' =>
      let n := nat_of_ascii c in
      (((48 <=? n) && (n <=? 57)) || ((65 <=? n) && (n <=? 90))
       || ((97 <=? n) && (n <=? 122)) || (n =? 45) || (n =? 95))%nat
      && literal_name s'
  end.

(** The value group: everything before the next [;]. *)
Fixpoint cookie_value (s : string) : string :=
  match s with
  | EmptyString => ""
  | String c s' => if (c =? ";")%char then "" else String c (cookie_value s')
  end.

(** The leftmost match of that pattern: its first group and its second. *)
Fixpoint find_cookie (at_start : bool) (name s : string) : option (string * string) :=
  match (if at_start then after (name ^^ "=") s else None) with
  | Some rest => Some ("", cookie_value rest)
  | None =>
      match after ("; " ^^ name ^^ "=") s with
      | Some rest => Some ("; ", cookie_value rest)
      | None =>
          match s with
          | EmptyString => None
          | String _ s' => find_cookie false name s'
          end
      end
  end.

(** [subject.match(RegExp(pattern))] for the patterns the pipeline builds
    from a literal cookie name; other patterns are not part of this
    document. *)
Definition cookie_match (subject : value) (pattern : string)
  : completion (option (list value)) :=
  match subject, pattern_name pattern with
  | VStr s, Some name =>
      if literal_name name then
        Normal (match find_cookie true name s with
                | Some (g1, g2) => Some [VStr (g1 ^^ name ^^ "=" ^^ g2); VStr g1; VStr g2]
                | None => None
                end)
      else Throw Reference.SyntaxError
  | _, _ => Throw TypeError
  end.

Definition URIError : value := VObj [("name", VStr "URIError")].

(** Percent-decoding of code units below 128. *)
Fixpoint percent_decode (s : string) : option string :=
  match s with
  | EmptyString => Some ""
  | String c r =>
      if (c =? "%")%char then
        match r with
        | String h1 (String h2 r') =>
            match Reference.hex_of h1, Reference.hex_of h2, percent_decode r' with
            | Some a, Some b, Some t =>
                if (16 * a + b <? 128)%nat
                then Some (String (ascii_of_nat (16 * a + b)) t)
                else None
            | _, _, _ => None
            end
        | _ => None
        end
      else match percent_decode r with
           | Some t => Some (String c t)
           | None => None
           end
  end.

(** [decodeURIComponent] on ASCII tokens. *)
Definition decode_component (v : value) : completion value :=
  match percent_decode (ToString v) with
  | Some t => Normal (VStr t)
  | None => Throw URIError
  end.

(** A platform with a document whose cookie string is [cookies]. *)
Definition window (cookies : string)
  (sync : list (nat * (list value -> completion value)))
  (async : list (nat * (list value -> completion settled))) : Env :=
  {| call := Reference.table sync;
     call_async := Reference.table async;
     fetch := VFun 0;
     JSON_stringify := Reference.stringify;
     JSON_parse := Reference.parse;
     URLSearchParams_toString := Reference.search_params;
     document := Some {| cookie := VStr cookies;
                         RegExp_match := cookie_match;
                         decodeURIComponent := decode_component |} |}.

End Browser.

(** ** Fixtures *)

Module Fixtures.
Import Samples.

Definition instance_defaults : obj :=
  [("baseURL", VStr "https://api.example"); ("withCredentials", VBool true);
   ("fetch", VFun 7)].

Definition call_options : obj :=
  [("withCredentials", VNull); ("responseType", VStr "text")].

(** A transform that only looks at its arguments (closure 3), one that
    throws (closure 4) and one that replaces the body (closure 5). *)
Definition void_transform (args : list value) : completion value := Normal VUndefined.
Definition failing_transform (args : list value) : completion value :=
  Throw (VStr "not serializable").
Definition wrapping_transform (args : list value) : completion value :=
  Normal (VObj [("wrapped", nth 0 args VUndefined)]).

(** A platform whose transports answer 200: the global one (closure 0)
    and a second one (closure 7). *)
Definition platform : Env :=
  Reference.node
    [(2%nat, below_500); (3%nat, void_transform); (4%nat, failing_transform);
     (5%nat, wrapping_transform)]
    [(0%nat, fun _ => Normal (Fulfilled (raw 200 "OK")));
     (1%nat, fun _ => Normal (Fulfilled (VStr "[1]")));
     (7%nat, fun _ => Normal (Fulfilled (raw 200 "OK")))].

(** A platform whose transport rejects. *)
Definition offline : Env :=
  Reference.node [] [(0%nat, fun _ => Normal (Rejected (VStr "network down")))].

(** A browser whose cookie string holds an XSRF token. *)
Definition browser : Env :=
  Browser.window "theme=dark; XSRF-TOKEN=abc%20123" []
    [(0%nat, fun _ => Normal (Fulfilled (raw 200 "OK")));
     (1%nat, fun _ => Normal (Fulfilled (VStr "[1]")))].

Definition xsrf_defaults : value :=
  VObj [("xsrfCookieName", VStr "XSRF-TOKEN"); ("xsrfHeaderName", VStr "X-XSRF-TOKEN")].

Definition caller_token : value :=
  VObj [("headers", VObj [("x-xsrf-token", VStr "caller")])].

Definition raw_404 : obj :=
  [("status", VNum 404); ("statusText", VStr "Not Found"); ("ok", VBool false);
   ("body", VObj [("locked", VBool false)]); ("bodyUsed", VBool false);
   ("text", VFun 1)].

Definition init_hello : value :=
  VObj [("method", VStr "POST"); ("body", VStr "hello");
        ("headers", VObj []); ("credentials", VStr "include")].

Definition chain_defaults : value :=
  VObj [("transformRequest", VArr [VFun 3; VFun 4; VFun 5])].

Definition stream_config : value := VObj [("responseType", VStr "stream")].

Definition json_config : value := VObj [("responseType", VStr "json")].

Definition other_url : value := VObj [("url", VStr "/other")].

Definition auth_defaults : value := VObj [("auth", VStr "Bearer t")].

Definition caller_auth : value :=
  VObj [("headers", VObj [("Authorization", VStr "caller");
                          ("Content-Type", VStr "text/plain")])].

(** The text [{"a":1}]. *)
Definition json_a_1 : string :=
  "{" ^^ String Reference.dquote "a" ^^ String Reference.dquote ":1}".

Definition auth_json_init : value :=
  VObj [("method", VStr "POST"); ("body", VStr json_a_1);
        ("headers", VObj [("authorization", VStr "Bearer t");
                          ("content-type", VStr "application/json")]);
        ("credentials", VUndefined)].

Definition auth_text_init : value :=
  VObj [("method", VStr "POST"); ("body", VStr "a=1");
        ("headers", VObj [("authorization", VStr "Bearer t");
                          ("content-type", VStr "text/plain")]);
        ("credentials", VUndefined)].

Definition xsrf_init : value :=
  VObj [("method", VStr "POST"); ("body", VStr json_a_1);
        ("headers", VObj [("x-xsrf-token", VStr "abc 123");
                          ("content-type", VStr "application/json")]);
        ("credentials", VUndefined)].

(** A chain whose second transform (closure 5) replaces the body. *)
Definition wrap_defaults : value :=
  VObj [("transformRequest", VArr [VFun 3; VFun 5; VFun 3])].

Definition wrap_returns : list value :=
  [VUndefined; VObj [("wrapped", VStr "hello")]; VUndefined].

(** The text [{"wrapped":"hello"}]. *)
Definition json_wrapped_hello : string :=
  "{" ^^ String Reference.dquote "wrapped" ^^ String Reference.dquote ":"
  ^^ String Reference.dquote "hello" ^^ String Reference.dquote "}".

Definition wrapped_init : value :=
  VObj [("method", VStr "POST"); ("body", VStr json_wrapped_hello);
        ("headers", VObj [("content-type", VStr "application/json")]);
        ("credentials", VUndefined)].

Definition browser_document : Document :=
  {| cookie := VStr "theme=dark; XSRF-TOKEN=abc%20123";
     RegExp_match := Browser.cookie_match;
     decodeURIComponent := Browser.decode_component |}.

Definition xsrf_match : list value :=
  [VStr "; XSRF-TOKEN=abc%20123"; VStr "; "; VStr "abc%20123"].

End Fixtures.

(** * Properties *)

(** ** Objects as ordered property lists *)

Section ObjectFacts.

Lemma lookup_set_prop_eq (o : obj) k v : lookup k (set_prop o k v) = Some v.
Proof.
  induction o as [|[k' v'] o IH]; simpl.
  - now rewrite String.eqb_refl.
  - destruct (k' =? k) eqn:E; simpl.
    + now rewrite String.eqb_refl.
    + now rewrite E.
Qed.

Lemma lookup_set_prop_ne (o : obj) k k' v :
  k <> k' -> lookup k' (set_prop o k v) = lookup k' o.
Proof.
  intros Hne. induction o as [|[k0 v0] o IH]; simpl.
  - apply String.eqb_neq in Hne. now rewrite Hne.
  - destruct (k0 =? k) eqn:E; simpl.
    + apply String.eqb_eq in E. subst k0.
      apply String.eqb_neq in Hne. now rewrite Hne.
    + destruct (k0 =? k'); auto.
Qed.

Lemma lookup_None_keys (o : obj) k : lookup k o = None <-> ~ In k (keys o).
Proof.
  induction o as [|[k' v'] o IH]; simpl.
  - tauto.
  - destruct (k' =? k) eqn:E.
    + apply String.eqb_eq in E. split; [discriminate | tauto].
    + apply String.eqb_neq in E. rewrite IH. tauto.
Qed.

Lemma lookup_Some_In (o : obj) k v : lookup k o = Some v -> In (k, v) o.
Proof.
  induction o as [|[k' v'] o IH]; simpl; [discriminate|].
  destruct (k' =? k) eqn:E.
  - apply String.eqb_eq in E. intros [= ->]. subst. now left.
  - auto.
Qed.

Lemma has_key_false (o : obj) k : ~ In k (keys o) -> has_key k o = false.
Proof.
  intros H. apply lookup_None_keys in H. unfold has_key. now rewrite H.
Qed.

Lemma set_prop_fresh (o : obj) k v :
  ~ In k (keys o) -> set_prop o k v = o ++ [(k, v)].
Proof.
  induction o as [|[k' v'] o IH]; simpl; intros H; [reflexivity|].
  destruct (k' =? k) eqn:E.
  - apply String.eqb_eq in E. tauto.
  - rewrite IH; tauto.
Qed.

Lemma keys_set_prop (o : obj) k v :
  keys (set_prop o k v) = if has_key k o then keys o else keys o ++ [k].
Proof.
  unfold has_key. induction o as [|[k' v'] o IH]; simpl; [reflexivity|].
  destruct (k' =? k) eqn:E; simpl.
  - apply String.eqb_eq in E. now subst.
  - rewrite IH. now destruct (lookup k o).
Qed.

Lemma NoDup_set_prop (o : obj) k v :
  NoDup (keys o) -> NoDup (keys (set_prop o k v)).
Proof.
  intros H. rewrite keys_set_prop. unfold has_key.
  destruct (lookup k o) eqn:E; [assumption|].
  apply lookup_None_keys in E.
  apply NoDup_app; [assumption | repeat constructor; simpl; tauto |].
  intros x Hx [<-|[]]. tauto.
Qed.

Lemma lookup_app (a b : obj) k :
  lookup k (a ++ b) = match lookup k a with Some v => Some v | None => lookup k b end.
Proof.
  induction a as [|[k' v'] a IH]; simpl; [reflexivity|].
  now destruct (k' =? k).
Qed.

Lemma keys_app (a b : obj) : keys (a ++ b) = keys a ++ keys b.
Proof. apply map_app. Qed.

End ObjectFacts.

(** ** Case folding *)

Lemma lower_unit_idem c : lower_unit (lower_unit c) = lower_unit c.
Proof. destruct c as [[] [] [] [] [] [] [] []]; reflexivity. Qed.

Lemma toLowerCase_idem s : toLowerCase (toLowerCase s) = toLowerCase s.
Proof.
  unfold toLowerCase. induction s as [|c s IH]; simpl; [reflexivity|].
  now rewrite lower_unit_idem, IH.
Qed.

Lemma has_upper_toLowerCase s : has_upper_ascii (toLowerCase s) = false.
Proof.
  unfold toLowerCase. induction s as [|c s IH]; simpl; [reflexivity|].
  rewrite IH, orb_false_r.
  destruct c as [[] [] [] [] [] [] [] []]; reflexivity.
Qed.

(** ** The loops of deepMerge *)

Section MergeFacts.

Variable lowerCase : bool.
#[local] Abbreviation fk := (fold_key lowerCase).

(** [deepMerge] on a base that is no array and an object override is the
    first loop followed by the second. *)
Lemma deepMerge_obj opts o :
  isArray opts = false ->
  deepMerge opts (VObj o) lowerCase
  = VObj (merge_props lowerCase o (copy_props lowerCase opts)).
Proof.
  intros Hopts.
  assert (H : forall out,
    (fix loop (es : obj) (out : obj) {struct es} : obj :=
       match es with
       | [] => out
       | (i, value) :: es' =>
           loop es' (set_prop out (fk i)
             (if has_key (fk i) out && is_plain_object value
              then deepMerge (get_own out (fk i)) value (fk i =? "headers")
              else value))
       end) o out = merge_props lowerCase o out).
  { induction o as [|[i v] o IH]; intros out; simpl; [reflexivity|].
    rewrite IH. reflexivity. }
  destruct opts; try discriminate; simpl; now rewrite H.
Qed.

Lemma copy_props_put_all opts :
  copy_props lowerCase opts = put_all lowerCase (for_in opts) [].
Proof. reflexivity. Qed.

Lemma lookup_put_all es : forall out k,
  lookup k (put_all lowerCase es out)
  = match lookup_folded lowerCase k es with
    | Some v => Some v
    | None => lookup k out
    end.
Proof.
  unfold put_all.
  induction es as [|[i v] es IH]; intros out k; simpl; [reflexivity|].
  rewrite IH. destruct (lookup_folded lowerCase k es); [reflexivity|].
  destruct (fk i =? k) eqn:E.
  - apply String.eqb_eq in E. subst k. apply lookup_set_prop_eq.
  - apply String.eqb_neq in E. now apply lookup_set_prop_ne.
Qed.

Lemma NoDup_put_all es : forall out,
  NoDup (keys out) -> NoDup (keys (put_all lowerCase es out)).
Proof.
  unfold put_all. induction es as [|[i v] es IH]; intros out H; simpl; auto.
  apply IH. now apply NoDup_set_prop.
Qed.

Lemma Forall_keys_put_all (P : string -> Prop) es : forall out,
  Forall P (keys out) -> Forall P (map fk (keys es)) ->
  Forall P (keys (put_all lowerCase es out)).
Proof.
  unfold put_all. induction es as [|[i v] es IH]; intros out Ho He; simpl; auto.
  inversion He; subst. apply IH; auto.
  rewrite keys_set_prop. destruct (has_key (fk i) out); auto.
  apply Forall_app. split; auto.
Qed.

Lemma lookup_folded_notin k es :
  ~ In k (map fk (keys es)) -> lookup_folded lowerCase k es = None.
Proof.
  induction es as [|[i v] es IH]; simpl; intros H; [reflexivity|].
  rewrite IH by tauto.
  destruct (fk i =? k) eqn:E; [|reflexivity].
  apply String.eqb_eq in E. tauto.
Qed.

Lemma lookup_folded_In i v es :
  NoDup (map fk (keys es)) -> In (i, v) es ->
  lookup_folded lowerCase (fk i) es = Some v.
Proof.
  induction es as [|[j w] es IH]; simpl; intros Hnd Hin; [contradiction|].
  inversion Hnd as [|? ? Hnotin Hnd']; subst.
  destruct Hin as [[= -> ->]|Hin].
  - rewrite lookup_folded_notin by assumption. now rewrite String.eqb_refl.
  - now rewrite IH.
Qed.

Lemma merge_props_app es1 es2 out :
  merge_props lowerCase (es1 ++ es2) out
  = merge_props lowerCase es2 (merge_props lowerCase es1 out).
Proof.
  revert out. induction es1 as [|[i v] es1 IH]; intros out; simpl; auto.
Qed.

Lemma lookup_assign_eq out i v :
  lookup (fk i) (assign lowerCase out i v)
  = Some (if has_key (fk i) out && is_plain_object v
          then deepMerge (get_own out (fk i)) v (fk i =? "headers")
          else v).
Proof. unfold assign. apply lookup_set_prop_eq. Qed.

Lemma lookup_assign_ne out i v k :
  fk i <> k -> lookup k (assign lowerCase out i v) = lookup k out.
Proof. unfold assign. intros H. now apply lookup_set_prop_ne. Qed.

Lemma lookup_merge_props_other k es : forall out,
  ~ In k (map fk (keys es)) ->
  lookup k (merge_props lowerCase es out) = lookup k out.
Proof.
  induction es as [|[i v] es IH]; intros out H; simpl in *; [reflexivity|].
  rewrite IH by tauto. apply lookup_assign_ne. tauto.
Qed.

(** Plain values are assigned, so a loop over them is [put_all]. *)
Lemma merge_props_plain es : forall out,
  Forall (fun kv => is_plain_object (snd kv) = false) es ->
  merge_props lowerCase es out = put_all lowerCase es out.
Proof.
  unfold put_all.
  induction es as [|[i v] es IH]; intros out H; simpl; [reflexivity|].
  inversion H as [|? ? Hv Hes]; subst. simpl in Hv.
  rewrite IH by assumption. unfold assign. rewrite Hv.
  now rewrite andb_false_r.
Qed.

(** The entry [(j, w)] of an override whose later entries have other
    names decides the merged value of its name. *)
Lemma lookup_merge_props_entry es1 j w es2 out :
  ~ In (fk j) (map fk (keys es2)) ->
  lookup (fk j) (merge_props lowerCase (es1 ++ (j, w) :: es2) out)
  = (let o := merge_props lowerCase es1 out in
     Some (if has_key (fk j) o && is_plain_object w
           then deepMerge (get_own o (fk j)) w (fk j =? "headers")
           else w)).
Proof.
  intros H. rewrite merge_props_app. simpl.
  rewrite lookup_merge_props_other by assumption.
  apply lookup_assign_eq.
Qed.

End MergeFacts.

(** ** ConfigMerger *)

Module Merge.
Import Samples.

(** C1, counterexample: merging [{transformRequest: [f1]}] with
    [{transformRequest: [f2]}] maps [transformRequest] to [[f2]], the
    override's array alone, and not to the concatenation [[f1, f2]]. *)
Lemma arrays_not_concatenated :
  lookup "transformRequest" defaults_chain = Some (VArr [VFun 1])
  /\ lookup "transformRequest" call_chain = Some (VArr [VFun 2])
  /\ prop (deepMerge (VObj defaults_chain) (VObj call_chain) false) "transformRequest"
     = VArr [VFun 2]
  /\ prop (deepMerge (VObj defaults_chain) (VObj call_chain) false) "transformRequest"
     <> VArr ([VFun 1] ++ [VFun 2]).
Proof. repeat split; try reflexivity. discriminate. Qed.

(** C1, amended: when a key holds an array in both configurations, the
    merged configuration maps it to the override's array alone (the guard
    [!Array.isArray(value)] makes an array override replace); arrays are
    concatenated where the base argument of [deepMerge] itself is an
    array. *)
Theorem array_entry_replaced (a b : obj) (k : string) (xs ys : list value) :
  NoDup (keys b) ->
  lookup k a = Some (VArr xs) ->
  lookup k b = Some (VArr ys) ->
  prop (deepMerge (VObj a) (VObj b) false) k = VArr ys
  /\ deepMerge (VArr xs) (VArr ys) false = VArr (xs ++ ys).
Proof.
  intros Hnd _ Hb. split; [|reflexivity].
  rewrite deepMerge_obj by reflexivity. simpl. unfold get_own.
  apply lookup_Some_In in Hb.
  destruct (in_split _ _ Hb) as (b1 & b2 & ->).
  unfold keys in Hnd. rewrite map_app in Hnd. simpl in Hnd.
  apply NoDup_remove_2 in Hnd.
  pose proof (lookup_merge_props_entry false b1 k (VArr ys) b2
                (copy_props false (VObj a))) as E.
  simpl in E. rewrite andb_false_r in E. rewrite E; [reflexivity|].
  rewrite map_id. intros Hin. apply Hnd. apply in_or_app. now right.
Qed.

Lemma array_entry_replaced_witness :
  NoDup (keys call_chain)
  /\ lookup "transformRequest" defaults_chain = Some (VArr [VFun 1])
  /\ lookup "transformRequest" call_chain = Some (VArr [VFun 2])
  /\ prop (deepMerge (VObj defaults_chain) (VObj call_chain) false) "transformRequest"
     = VArr [VFun 2]
  /\ deepMerge (VArr [VFun 1]) (VArr [VFun 2]) false = VArr ([VFun 1] ++ [VFun 2]).
Proof.
  assert (H : NoDup (keys call_chain)).
  { repeat constructor. simpl. tauto. }
  split; [exact H|]. split; [reflexivity|]. split; [reflexivity|].
  apply (array_entry_replaced defaults_chain call_chain "transformRequest"
           [VFun 1] [VFun 2] H eq_refl eq_refl).
Defined.

(** C4, counterexample: at the top-level call (no case folding) the key
    [Headers] lower-cases to [headers], yet the recursive merge of its
    values runs without the lower-case flag: [A] and [a] stay apart. *)
Lemma Headers_not_matched :
  toLowerCase "Headers" = "headers"
  /\ prop (deepMerge (VObj base_Headers) (VObj over_Headers) false) "Headers"
     = deepMerge (VObj [("A", VNum 1)]) (VObj [("a", VNum 2)]) false
  /\ prop (deepMerge (VObj base_Headers) (VObj over_Headers) false) "Headers"
     <> deepMerge (VObj [("A", VNum 1)]) (VObj [("a", VNum 2)]) true.
Proof. repeat split; try reflexivity. discriminate. Qed.

(** C4, amended: when an override value is a plain mapping and its key
    (folded when the call folds) already exists in the accumulating
    result, the two values are merged recursively, and the lower-case flag
    of that recursive merge is the comparison [key === 'headers'] of the
    key as the current call spells it: exact, so at a call without case
    folding only the spelling [headers] propagates the flag. *)
Theorem recursive_entry_flag (lowerCase : bool) (a b : obj) (i j : string)
  (x : value) (v : obj) :
  NoDup (map (fold_key lowerCase) (keys a)) ->
  NoDup (map (fold_key lowerCase) (keys b)) ->
  In (i, x) a ->
  In (j, VObj v) b ->
  fold_key lowerCase i = fold_key lowerCase j ->
  prop (deepMerge (VObj a) (VObj b) lowerCase) (fold_key lowerCase j)
  = deepMerge x (VObj v) (fold_key lowerCase j =? "headers")
  /\ ((fold_key lowerCase j =? "headers") = true <-> fold_key lowerCase j = "headers").
Proof.
  intros Ha Hb Hia Hjb Hij. split; [|apply String.eqb_eq].
  rewrite deepMerge_obj by reflexivity. simpl. unfold get_own.
  destruct (in_split _ _ Hjb) as (b1 & b2 & ->).
  unfold keys in Hb. rewrite !map_app in Hb. simpl in Hb.
  pose proof (NoDup_remove_2 _ _ _ Hb) as Hnot.
  rewrite lookup_merge_props_entry
    by (intros Hin; apply Hnot; apply in_or_app; now right).
  cbv zeta.
  assert (Hout : lookup (fold_key lowerCase j)
                   (merge_props lowerCase b1 (copy_props lowerCase (VObj a))) = Some x).
  { rewrite lookup_merge_props_other
      by (intros Hin; apply Hnot; apply in_or_app; now left).
    rewrite copy_props_put_all, lookup_put_all. simpl for_in.
    rewrite <- Hij. now rewrite (lookup_folded_In lowerCase i x a). }
  unfold has_key, get_own. rewrite Hout. reflexivity.
Qed.

Lemma recursive_entry_flag_witness :
  NoDup (map (fold_key false) (keys base_Headers))
  /\ NoDup (map (fold_key false) (keys over_Headers))
  /\ prop (deepMerge (VObj base_Headers) (VObj over_Headers) false) (fold_key false "Headers")
     = deepMerge (VObj [("A", VNum 1)]) (VObj [("a", VNum 2)])
         (fold_key false "Headers" =? "headers").
Proof.
  assert (H1 : NoDup (map (fold_key false) (keys base_Headers))).
  { repeat constructor. simpl. tauto. }
  assert (H2 : NoDup (map (fold_key false) (keys over_Headers))).
  { repeat constructor. simpl. tauto. }
  split; [exact H1|]. split; [exact H2|].
  apply (recursive_entry_flag false base_Headers over_Headers "Headers" "Headers"
           (VObj [("A", VNum 1)]) [("a", VNum 2)] H1 H2
           (or_introl eq_refl) (or_introl eq_refl) eq_refl).
Defined.

(** Merging [out] with entries of fresh, distinct names appends them. *)
Lemma merge_props_fresh (b : obj) : forall out,
  NoDup (keys (out ++ b)) -> merge_props false b out = out ++ b.
Proof.
  induction b as [|[i v] b IH]; intros out H; simpl.
  - now rewrite app_nil_r.
  - assert (Hi : ~ In i (keys out)).
    { rewrite keys_app in H. simpl in H. apply NoDup_remove_2 in H.
      intros Hin. apply H. apply in_or_app. now left. }
    unfold assign. simpl. rewrite (has_key_false _ _ Hi). simpl.
    rewrite set_prop_fresh by assumption.
    rewrite IH; rewrite <- app_assoc; [reflexivity | exact H].
Qed.

Lemma NoDup_keys_app (a b : obj) :
  NoDup (keys a) -> NoDup (keys b) -> disjoint_keys a b -> NoDup (keys (a ++ b)).
Proof.
  intros Ha Hb Hd. rewrite keys_app. apply NoDup_app; auto.
Qed.

Lemma put_all_fresh (es : obj) : forall out,
  NoDup (keys (out ++ es)) -> put_all false es out = out ++ es.
Proof.
  unfold put_all.
  induction es as [|[i v] es IH]; intros out H; simpl.
  - now rewrite app_nil_r.
  - assert (Hi : ~ In i (keys out)).
    { rewrite keys_app in H. simpl in H. apply NoDup_remove_2 in H.
      intros Hin. apply H. apply in_or_app. now left. }
    rewrite set_prop_fresh by assumption.
    rewrite IH; rewrite <- app_assoc; [reflexivity | exact H].
Qed.

Lemma deepMerge_disjoint (a b : obj) :
  NoDup (keys a) -> NoDup (keys b) -> disjoint_keys a b ->
  deepMerge (VObj a) (VObj b) false = VObj (a ++ b).
Proof.
  intros Ha Hb Hd. rewrite deepMerge_obj by reflexivity. f_equal.
  rewrite copy_props_put_all. simpl for_in.
  rewrite (put_all_fresh a []) by exact Ha. simpl.
  apply merge_props_fresh. now apply NoDup_keys_app.
Qed.

Lemma disjoint_keys_sym (a b : obj) : disjoint_keys a b -> disjoint_keys b a.
Proof. unfold disjoint_keys. intros H k Hb Ha. exact (H k Ha Hb). Qed.

(** X21: for configurations with disjoint key sets and no key named
    [__proto__], [deepMerge A B] and [deepMerge B A] are the same mapping,
    and it is the union of the entries of [A] and [B]: one entry per key,
    holding what [A] or [B] holds for it.  (Under the name [__proto__]
    the source creates no entry, see [proto_free]: there the union
    fails.) *)
Theorem disjoint_merge_is_union (a b : obj) :
  proto_free (VObj a) = true -> proto_free (VObj b) = true ->
  NoDup (keys a) -> NoDup (keys b) -> disjoint_keys a b ->
  exists ab ba : obj,
    deepMerge (VObj a) (VObj b) false = VObj ab
    /\ deepMerge (VObj b) (VObj a) false = VObj ba
    /\ (forall k, lookup k ab = lookup k ba)
    /\ NoDup (keys ab)
    /\ (forall k v, lookup k ab = Some v <-> lookup k a = Some v \/ lookup k b = Some v).
Proof.
  intros _ _ Ha Hb Hd. exists (a ++ b), (b ++ a).
  assert (Hex : forall k, lookup k a = None \/ lookup k b = None).
  { intros k. destruct (lookup k a) eqn:E; [right | now left].
    apply lookup_None_keys. apply Hd.
    apply lookup_Some_In in E. apply (in_map fst) in E. exact E. }
  split; [now apply deepMerge_disjoint|].
  split; [apply deepMerge_disjoint; auto using disjoint_keys_sym|].
  split; [|split].
  - intros k. rewrite !lookup_app.
    destruct (Hex k) as [E|E]; rewrite E.
    + now destruct (lookup k b).
    + now destruct (lookup k a).
  - now apply NoDup_keys_app.
  - intros k v. rewrite lookup_app.
    destruct (Hex k) as [E|E]; rewrite E.
    + split; [now right | intros [H|H]; [discriminate | exact H]].
    + destruct (lookup k a) as [w|].
      * split; [now left | intros [H|H]; [exact H | discriminate]].
      * split; [discriminate | intros [H|H]; discriminate].
Qed.

Lemma disjoint_merge_is_union_witness :
  proto_free (VObj only_baseURL) = true /\ proto_free (VObj only_method) = true
  /\ NoDup (keys only_baseURL) /\ NoDup (keys only_method)
  /\ disjoint_keys only_baseURL only_method
  /\ exists ab ba : obj,
    deepMerge (VObj only_baseURL) (VObj only_method) false = VObj ab
    /\ deepMerge (VObj only_method) (VObj only_baseURL) false = VObj ba
    /\ (forall k, lookup k ab = lookup k ba)
    /\ NoDup (keys ab)
    /\ (forall k v, lookup k ab = Some v
                    <-> lookup k only_baseURL = Some v \/ lookup k only_method = Some v).
Proof.
  assert (H1 : NoDup (keys only_baseURL)).
  { repeat constructor. simpl. tauto. }
  assert (H2 : NoDup (keys only_method)).
  { repeat constructor; simpl; intuition discriminate. }
  assert (H3 : disjoint_keys only_baseURL only_method).
  { intros k. simpl. intuition (subst; discriminate). }
  split; [reflexivity|]. split; [reflexivity|].
  split; [exact H1|]. split; [exact H2|]. split; [exact H3|].
  exact (disjoint_merge_is_union only_baseURL only_method eq_refl eq_refl H1 H2 H3).
Defined.

(** *** Headers *)

Lemma header_props_plain (h : header_mapping) :
  Forall (fun kv => is_plain_object (snd kv) = false) (header_props h).
Proof. induction h as [|[k v] h IH]; constructor; auto. Qed.

Lemma lookup_folded_headers (n : string) (h : header_mapping) :
  lookup_folded true (toLowerCase n) (header_props h)
  = option_map VStr (lookup_ci n h).
Proof.
  induction h as [|[k v] h IH]; simpl; [reflexivity|].
  rewrite IH. destruct (lookup_ci n h); simpl; [reflexivity|].
  now destruct (toLowerCase k =? toLowerCase n).
Qed.

Lemma folded_keys_lower (es : obj) :
  Forall (fun k => toLowerCase k = k) (map (fold_key true) (keys es)).
Proof.
  induction es as [|[k v] es IH]; constructor; auto.
  apply toLowerCase_idem.
Qed.

(** X22: for caller headers that are a plain object of strings, with no
    header named [__proto__] on either side, the finalized headers
    [deepMerge(options.headers || {}, customHeaders, true)] hold one entry
    per header name compared case-insensitively, under the lower-cased
    name (no name of the result has an upper-case ASCII letter), and a
    name the internally computed headers hold gets their value; any other
    name keeps the caller's value. *)
Theorem finalized_headers (options : value) (caller computed : header_mapping) :
  js_or (prop options "headers") (VObj []) = headers_value caller ->
  proto_free (headers_value caller) = true ->
  proto_free (headers_value computed) = true ->
  exists fin : obj,
    finalize_headers options (header_props computed) = VObj fin
    /\ NoDup (map toLowerCase (keys fin))
    /\ Forall (fun k => toLowerCase k = k) (keys fin)
    /\ (forall n v, lookup_ci n computed = Some v ->
                    lookup (toLowerCase n) fin = Some (VStr v))
    /\ (forall n, lookup_ci n computed = None ->
                  lookup (toLowerCase n) fin = option_map VStr (lookup_ci n caller))
    /\ Forall (fun k => has_upper_ascii k = false) (keys fin).
Proof.
  intros Hh _ _. unfold finalize_headers. rewrite Hh. unfold headers_value.
  rewrite deepMerge_obj by reflexivity.
  rewrite merge_props_plain by apply header_props_plain.
  rewrite copy_props_put_all. simpl for_in.
  set (fin := put_all true (header_props computed)
                (put_all true (header_props caller) [])).
  assert (Hlower : Forall (fun k => toLowerCase k = k) (keys fin)).
  { apply Forall_keys_put_all; [|apply folded_keys_lower].
    apply Forall_keys_put_all; [constructor | apply folded_keys_lower]. }
  assert (Hlook : forall n, lookup (toLowerCase n) fin
            = match lookup_ci n computed with
              | Some v => Some (VStr v)
              | None => option_map VStr (lookup_ci n caller)
              end).
  { intros n. unfold fin. rewrite !lookup_put_all, !lookup_folded_headers.
    destruct (lookup_ci n computed); simpl; [reflexivity|].
    now destruct (lookup_ci n caller). }
  exists fin. split; [reflexivity|]. split; [|split; [exact Hlower|split; [|split]]].
  - assert (E : map toLowerCase (keys fin) = keys fin).
    { clear -Hlower. induction Hlower as [|k ks Hk _ IH]; simpl; congruence. }
    rewrite E. repeat apply NoDup_put_all. constructor.
  - intros n v Hn. rewrite Hlook, Hn. reflexivity.
  - intros n Hn. rewrite Hlook, Hn. reflexivity.
  - eapply Forall_impl; [|exact Hlower].
    intros k Hk. simpl in Hk. rewrite <- Hk. apply has_upper_toLowerCase.
Qed.

Lemma finalized_headers_witness :
  js_or (prop (VObj [("headers", headers_value caller_headers)]) "headers") (VObj [])
  = headers_value caller_headers
  /\ proto_free (headers_value caller_headers) = true
  /\ proto_free (headers_value computed_headers) = true
  /\ exists fin : obj,
    finalize_headers (VObj [("headers", headers_value caller_headers)])
      (header_props computed_headers) = VObj fin
    /\ NoDup (map toLowerCase (keys fin))
    /\ Forall (fun k => toLowerCase k = k) (keys fin)
    /\ (forall n v, lookup_ci n computed_headers = Some v ->
                    lookup (toLowerCase n) fin = Some (VStr v))
    /\ (forall n, lookup_ci n computed_headers = None ->
                  lookup (toLowerCase n) fin
                  = option_map VStr (lookup_ci n caller_headers))
    /\ Forall (fun k => has_upper_ascii k = false) (keys fin).
Proof.
  split; [reflexivity|]. split; [reflexivity|]. split; [reflexivity|].
  exact (finalized_headers (VObj [("headers", headers_value caller_headers)])
           caller_headers computed_headers eq_refl eq_refl eq_refl).
Defined.

(** C5, the example of the claim, evaluated. *)
Example content_type_collapses :
  finalize_headers (VObj [("headers", headers_value caller_headers)])
    (header_props computed_headers)
  = VObj [("content-type", VStr "application/json");
          ("x-custom-header", VStr "my-custom-value");
          ("authorization", VStr "token")].
Proof. reflexivity. Qed.

(** Names that differ in the case of a Latin-1 letter collapse as well. *)
Example latin1_names_collapse :
  finalize_headers (VObj [("headers", headers_value latin1_headers)])
    (header_props computed_headers)
  = VObj [(String (ascii_of_nat 233) "tag", VStr "lower");
          ("authorization", VStr "token");
          ("content-type", VStr "application/json")].
Proof. reflexivity. Qed.

(** C5, failing input: caller headers given as a [Headers] instance, the
    second alternative of [RequestHeaders].  The merge enumerates them
    with [for (i in opts)], which visits the methods of the instance and
    none of its header entries: the caller's [X-Custom-Header] is not
    among the finalized headers, and the lower-cased method names are. *)
Lemma Headers_instance_not_copied :
  let fin := finalize_headers (VObj [("headers", Headers_instance)])
               (header_props computed_headers) in
  prop fin "x-custom-header" = VUndefined
  /\ prop fin "X-Custom-Header" = VUndefined
  /\ typeof (prop fin "append") = "function"
  /\ typeof (prop fin "foreach") = "function"
  /\ prop fin "content-type" = VStr "application/json".
Proof. repeat split; reflexivity. Qed.

End Merge.

(** ** RequestPipeline *)

Module Request.
Import Samples.

Section Facts.

Variable env : Env.

Lemma bind_Normal {A B} (c : completion A) (k : A -> completion B) (b : B) :
  bind c k = Normal b -> exists a, c = Normal a /\ k a = Normal b.
Proof. destruct c as [a|e]; simpl; [eauto | discriminate]. Qed.

Lemma bind_Throw {A B} (c : completion A) (k : A -> completion B) (e : value) :
  c = Throw e -> bind c k = Throw e.
Proof. now intros ->. Qed.

Ltac invert_bind H :=
  let a := fresh "a" in
  let Ha := fresh "Ha" in
  apply bind_Normal in H; destruct H as (a & Ha & H).

(** A successful synchronous part, stage by stage. *)
Lemma prepare_inv defaults u c m d rq :
  prepare env defaults u c m d = Normal rq ->
  exists body encoded custom url1,
    transformRequest env (resolve defaults (call_config u c))
      (js_or d (prop (resolve defaults (call_config u c)) "data")) = Normal body
    /\ encode_json env body (auth_headers (resolve defaults (call_config u c)))
       = Normal (encoded, custom)
    /\ compose_base (resolve defaults (call_config u c)) (call_url u c) = Normal url1
    /\ compose_query env (resolve defaults (call_config u c)) url1 = Normal (req_url rq)
    /\ RequestInit (resolve defaults (call_config u c)) m encoded
         (xsrf env (resolve defaults (call_config u c)) custom) = Normal (req_init rq)
    /\ req_options rq = resolve defaults (call_config u c)
    /\ req_fetch rq = js_or (prop (resolve defaults (call_config u c)) "fetch") (fetch env).
Proof.
  unfold prepare. intros H.
  invert_bind H. invert_bind H. destruct a0 as [encoded custom].
  invert_bind H. invert_bind H. invert_bind H.
  injection H as <-. simpl in *.
  do 4 eexists. repeat split; eassumption.
Qed.

(** A transport invocation comes from a successful synchronous part. *)
Lemma dispatch_inv defaults u c m d f url init :
  fst (redaxios env defaults u c m d) = [(f, url, init)] ->
  exists rq, prepare env defaults u c m d = Normal rq
             /\ req_fetch rq = f /\ req_url rq = url /\ req_init rq = init.
Proof.
  unfold redaxios. destruct (prepare env defaults u c m d) as [rq|e]; simpl.
  - destruct (req_fetch rq) eqn:Ef; simpl; try discriminate.
    intros [= <- <- <-]. exists rq. rewrite Ef. auto.
  - discriminate.
Qed.

Lemma RequestInit_body options m data custom init :
  RequestInit options m data custom = Normal init -> prop init "body" = data.
Proof.
  unfold RequestInit.
  destruct (js_or m (js_or (prop options "method") (VStr "get")));
    try discriminate.
  now intros [= <-].
Qed.

(** C2, amended: a body that reaches the JSON-encoding step and on which
    [JSON.stringify] throws makes the call throw that error synchronously
    ([redaxios] is no [async] function and the step is outside any
    [try]); no promise is returned, and the transport is not invoked. *)
Theorem stringify_failure_throws defaults u c m d body e :
  transformRequest env (resolve defaults (call_config u c))
    (js_or d (prop (resolve defaults (call_config u c)) "data")) = Normal body ->
  json_body body = true ->
  JSON_stringify env body = Throw e ->
  redaxios env defaults u c m d = ([], Throw e).
Proof.
  intros Ht Hj Hs. unfold redaxios, prepare. rewrite Ht. simpl.
  unfold encode_json. rewrite Hj, Hs. reflexivity.
Qed.

(** C3, amended: the body that enters the pipeline is the explicit body
    argument when that argument is truthy, and the resolved
    configuration's [data] field otherwise ([data || options.data]): the
    transport receives that body after the transform chain and, for a
    JSON body, its serialization. *)
Theorem request_body_source defaults u c m d f url init :
  fst (redaxios env defaults u c m d) = [(f, url, init)] ->
  exists body,
    transformRequest env (resolve defaults (call_config u c))
      (if truthy d then d else prop (resolve defaults (call_config u c)) "data")
    = Normal body
    /\ (if json_body body
        then JSON_stringify env body = Normal (prop init "body")
        else prop init "body" = body).
Proof.
  intros H. apply dispatch_inv in H. destruct H as (rq & Hp & _ & _ & <-).
  apply prepare_inv in Hp.
  destruct Hp as (body & encoded & custom & url1 & Ht & He & _ & _ & Hi & _).
  exists body. split; [exact Ht|].
  apply RequestInit_body in Hi. rewrite Hi.
  unfold encode_json in He. destruct (json_body body).
  - apply bind_Normal in He. destruct He as (s & Hs & [= <- _]). exact Hs.
  - now injection He as <- _.
Qed.

(** C8: when [params] is configured, the dispatched URL is the composed
    URL, then [?] (or [&] when the composed URL already has a [?]), then
    the serialization of [params]: what the supplied [paramsSerializer]
    returns, else the default query-string encoding. *)
Theorem query_appended defaults u c m d f url init :
  fst (redaxios env defaults u c m d) = [(f, url, init)] ->
  truthy (prop (resolve defaults (call_config u c)) "params") = true ->
  exists composed q,
    compose_base (resolve defaults (call_config u c)) (call_url u c)
    = Normal (VStr composed)
    /\ url = VStr (composed ^^ (if contains_char "?" composed then "&" else "?") ^^ q)
    /\ (if truthy (prop (resolve defaults (call_config u c)) "paramsSerializer")
        then exists r,
          apply env (prop (resolve defaults (call_config u c)) "paramsSerializer")
            [prop (resolve defaults (call_config u c)) "params"] = Normal r
          /\ q = ToString r
        else URLSearchParams_toString env
               (prop (resolve defaults (call_config u c)) "params") = Normal q).
Proof.
  intros H Hparams. apply dispatch_inv in H.
  destruct H as (rq & Hp & _ & <- & _).
  apply prepare_inv in Hp.
  destruct Hp as (body & encoded & custom & url1 & _ & _ & Hb & Hq & _).
  unfold compose_query in Hq. rewrite Hparams in Hq.
  destruct url1 as [| | | | |composed| | |]; try discriminate.
  apply bind_Normal in Hq. destruct Hq as (q & Hs & [= <-]).
  exists composed, q. split; [exact Hb|]. split; [reflexivity|].
  unfold serialize_params in Hs.
  destruct (truthy (prop (resolve defaults (call_config u c)) "paramsSerializer")).
  - apply bind_Normal in Hs. destruct Hs as (r & Hr & [= <-]). eauto.
  - exact Hs.
Qed.

(** C10: when the first argument is no string, the second argument plays
    no part: the call is the call with the first argument as its
    configuration and that configuration's [url] field ([''] when absent
    or falsy) as its URL.  The URL handed to the transport is that field
    (or ['']) taken through the base-URL and query steps of the
    configuration given first, and is that field itself when neither
    step applies. *)
Theorem config_first_argument defaults cfg c m d :
  (typeof cfg =? "string") = false ->
  (forall c', redaxios env defaults cfg c m d = redaxios env defaults cfg c' m d)
  /\ (forall s, prop cfg "url" = VStr s ->
                redaxios env defaults cfg c m d
                = redaxios env defaults (VStr s) cfg m d)
  /\ (truthy (prop cfg "url") = false ->
      redaxios env defaults cfg c m d = redaxios env defaults (VStr "") cfg m d)
  /\ (forall f url init,
        fst (redaxios env defaults cfg c m d) = [(f, url, init)] ->
        exists composed,
          compose_base (resolve defaults cfg)
            (if truthy (prop cfg "url") then prop cfg "url" else VStr "")
          = Normal composed
          /\ compose_query env (resolve defaults cfg) composed = Normal url)
  /\ (forall f url init,
        fst (redaxios env defaults cfg c m d) = [(f, url, init)] ->
        truthy (prop (resolve defaults cfg) "baseURL") = false ->
        truthy (prop (resolve defaults cfg) "params") = false ->
        url = if truthy (prop cfg "url") then prop cfg "url" else VStr "").
Proof.
  intros Hty.
  assert (Hurl : forall f url init,
            fst (redaxios env defaults cfg c m d) = [(f, url, init)] ->
            exists composed,
              compose_base (resolve defaults cfg)
                (if truthy (prop cfg "url") then prop cfg "url" else VStr "")
              = Normal composed
              /\ compose_query env (resolve defaults cfg) composed = Normal url).
  { intros f url init H. apply dispatch_inv in H.
    destruct H as (rq & Hp & _ & <- & _).
    apply prepare_inv in Hp.
    destruct Hp as (body & encoded & custom & url1 & _ & _ & Hbase & Hq & _).
    unfold call_url, call_config in Hbase, Hq. rewrite Hty in Hbase, Hq.
    simpl negb in Hbase, Hq. cbv iota in Hbase, Hq.
    exists url1. split; [exact Hbase | exact Hq]. }
  assert (Hc : forall c', call_config cfg c' = cfg).
  { intros c'. unfold call_config. now rewrite Hty. }
  assert (Hu : forall c', call_url cfg c' = js_or (prop cfg "url") (VStr "")).
  { intros c'. unfold call_url. rewrite Hty, Hc. reflexivity. }
  assert (Hprep : forall c' s, js_or (prop cfg "url") (VStr "") = VStr s ->
            prepare env defaults cfg c' m d = prepare env defaults (VStr s) cfg m d).
  { intros c' s Hs. unfold prepare.
    rewrite Hc, Hu, Hs.
    change (call_config (VStr s) cfg) with cfg.
    change (call_url (VStr s) cfg) with (VStr s). reflexivity. }
  split; [|split; [|split; [|split]]].
  - intros c'. unfold redaxios, prepare. now rewrite !Hc, !Hu.
  - intros s Hs. unfold redaxios. rewrite (Hprep c s); [reflexivity|].
    unfold js_or. rewrite Hs. simpl. destruct s; reflexivity.
  - intros Hf. unfold redaxios. rewrite (Hprep c ""); [reflexivity|].
    unfold js_or. now rewrite Hf.
  - exact Hurl.
  - intros f url init H Hb Hparams.
    destruct (Hurl f url init H) as (composed & Hbase & Hq).
    unfold compose_base in Hbase. rewrite Hb in Hbase. injection Hbase as <-.
    unfold compose_query in Hq. rewrite Hparams in Hq. now injection Hq as <-.
Qed.

(** C6, amended: after a completed transport exchange whose resolved
    [responseType] is not ['stream'], and whose decode method and success
    predicate return, the call resolves when the success predicate
    ([validateStatus] applied to the raw status when supplied, else the
    transport's [ok] flag) holds and rejects otherwise, and the payload is
    the same Response object either way. *)
Theorem status_settlement defaults u c m d f url init res decoded ok :
  fst (redaxios env defaults u c m d) = [(VFun f, url, init)] ->
  call_async env f [url; init] = Normal (Fulfilled res) ->
  is_stream (resolve defaults (call_config u c)) = false ->
  decode env (resolve defaults (call_config u c)) res = Normal decoded ->
  success_predicate env (resolve defaults (call_config u c)) res = Normal ok ->
  exists response : obj,
    response = store_data env decoded
                 (copy_raw res [("config", js_or (call_config u c) (VObj []))])
    /\ snd (redaxios env defaults u c m d)
       = Normal (if truthy ok then Fulfilled (VObj response)
                 else Rejected (VObj response)).
Proof.
  intros H Hcall Hstream Hdec Hok.
  eexists. split; [reflexivity|].
  pose proof (dispatch_inv _ _ _ _ _ _ _ _ H) as (rq & Hp & Hf & Hu & Hi).
  pose proof (prepare_inv _ _ _ _ _ _ Hp)
    as (body & encoded & custom & url1 & _ & _ & _ & _ & _ & Ho & _).
  assert (Hr : req_response rq = [("config", js_or (call_config u c) (VObj []))]).
  { clear -Hp. unfold prepare in Hp.
    invert_bind Hp. invert_bind Hp. invert_bind Hp. invert_bind Hp.
    invert_bind Hp. now injection Hp as <-. }
  unfold redaxios. rewrite Hp, Hf, Hu, Hi, Hcall. simpl.
  unfold on_response. rewrite Ho, Hr, Hstream, Hdec.
  unfold validate. rewrite Hok. now destruct (truthy ok).
Qed.

(** With [responseType: 'stream'] the callback returns the response
    before any validation. *)
Lemma stream_resolves options response res :
  is_stream options = true ->
  res <> VUndefined -> res <> VNull ->
  on_response env options response res
  = Fulfilled (VObj (set_prop (copy_raw res response) "data" (prop res "body"))).
Proof.
  intros Hs H1 H2. unfold on_response. rewrite Hs.
  destruct res; try reflexivity; congruence.
Qed.

End Facts.

(** *** C2, C3, C6: what the code does where the claims say otherwise *)

(** C2, counterexample: posting [{n: 1n}] makes [JSON.stringify] throw a
    [TypeError]; the call throws it synchronously instead of returning a
    rejected promise (the transport is not invoked). *)
Lemma stringify_failure_not_rejection :
  JSON_stringify server_200 (VObj [("n", VBigInt 1)]) = Throw TypeError
  /\ redaxios server_200 (VObj []) (VStr "/posts") VUndefined (VStr "post")
       (VObj [("n", VBigInt 1)])
     = ([], Throw TypeError)
  /\ forall r, snd (redaxios server_200 (VObj []) (VStr "/posts") VUndefined
                      (VStr "post") (VObj [("n", VBigInt 1)]))
               <> Normal (Rejected r).
Proof. repeat split; try reflexivity. intros r. vm_compute. discriminate. Qed.

Lemma stringify_failure_throws_witness :
  transformRequest server_200 (resolve (VObj []) (call_config (VStr "/posts") VUndefined))
    (js_or (VObj [("n", VBigInt 1)])
       (prop (resolve (VObj []) (call_config (VStr "/posts") VUndefined)) "data"))
  = Normal (VObj [("n", VBigInt 1)])
  /\ json_body (VObj [("n", VBigInt 1)]) = true
  /\ JSON_stringify server_200 (VObj [("n", VBigInt 1)]) = Throw TypeError
  /\ redaxios server_200 (VObj []) (VStr "/posts") VUndefined (VStr "post")
       (VObj [("n", VBigInt 1)])
     = ([], Throw TypeError).
Proof.
  split; [reflexivity|]. split; [reflexivity|]. split; [reflexivity|].
  apply (stringify_failure_throws server_200 (VObj []) (VStr "/posts") VUndefined
           (VStr "post") (VObj [("n", VBigInt 1)]) (VObj [("n", VBigInt 1)])
           TypeError eq_refl eq_refl eq_refl).
Defined.

(** C3, counterexample: with [data: 'fallback'] configured, the explicit
    bodies [''], [0] and [false] are not used: the transport receives
    ['fallback']. *)
Lemma falsy_body_falls_back :
  dispatched_bodies
    (redaxios server_200 (VObj []) (VStr "/posts") (VObj [("data", VStr "fallback")])
       (VStr "post") (VStr "")) = [VStr "fallback"]
  /\ dispatched_bodies
    (redaxios server_200 (VObj []) (VStr "/posts") (VObj [("data", VStr "fallback")])
       (VStr "post") (VNum 0)) = [VStr "fallback"]
  /\ dispatched_bodies
    (redaxios server_200 (VObj []) (VStr "/posts") (VObj [("data", VStr "fallback")])
       (VStr "post") (VBool false)) = [VStr "fallback"]
  /\ [VStr "fallback"] <> [VStr ""]
  /\ [VStr "fallback"] <> [VNum 0]
  /\ [VStr "fallback"] <> [VBool false].
Proof. repeat split; try reflexivity; discriminate. Qed.

Lemma request_body_source_witness :
  fst (redaxios server_200 (VObj []) (VStr "/posts") (VObj [("data", VStr "fallback")])
         (VStr "post") (VNum 0))
  = [(VFun 0, VStr "/posts", post_init)]
  /\ exists body,
    transformRequest server_200
      (resolve (VObj []) (call_config (VStr "/posts") (VObj [("data", VStr "fallback")])))
      (if truthy (VNum 0) then VNum 0
       else prop (resolve (VObj [])
                   (call_config (VStr "/posts") (VObj [("data", VStr "fallback")]))) "data")
    = Normal body
    /\ (if json_body body
        then JSON_stringify server_200 body = Normal (prop post_init "body")
        else prop post_init "body" = body).
Proof.
  split; [reflexivity|].
  apply (request_body_source server_200 (VObj []) (VStr "/posts")
           (VObj [("data", VStr "fallback")]) (VStr "post") (VNum 0)
           (VFun 0) (VStr "/posts") post_init eq_refl).
Defined.

(** C6, counterexample: with [responseType: 'stream'] a completed
    exchange of status 404 resolves, although the success predicate (the
    transport's [ok] flag) does not hold. *)
Lemma stream_404_resolves :
  success_predicate server_404
    (resolve (VObj []) (VObj [("responseType", VStr "stream")]))
    (raw 404 "Not Found") = Normal (VBool false)
  /\ match snd (redaxios server_404 (VObj []) (VStr "/posts/99999")
                  (VObj [("responseType", VStr "stream")]) (VStr "get") VUndefined) with
     | Normal (Fulfilled response) => prop response "status" = VNum 404
     | _ => False
     end.
Proof. split; reflexivity. Qed.

Lemma status_settlement_witness :
  fst (redaxios server_404 (VObj []) (VStr "/posts/99999") VUndefined (VStr "get") VUndefined)
  = [(VFun 0, VStr "/posts/99999", get_init)]
  /\ call_async server_404 0 [VStr "/posts/99999"; get_init]
     = Normal (Fulfilled (raw 404 "Not Found"))
  /\ is_stream (resolve (VObj []) (call_config (VStr "/posts/99999") VUndefined)) = false
  /\ decode server_404 (resolve (VObj []) (call_config (VStr "/posts/99999") VUndefined))
       (raw 404 "Not Found") = Normal (Fulfilled (VStr "Not Found"))
  /\ success_predicate server_404
       (resolve (VObj []) (call_config (VStr "/posts/99999") VUndefined))
       (raw 404 "Not Found") = Normal (VBool false)
  /\ exists response : obj,
    response = store_data server_404 (Fulfilled (VStr "Not Found"))
                 (copy_raw (raw 404 "Not Found")
                    [("config", js_or (call_config (VStr "/posts/99999") VUndefined)
                                  (VObj []))])
    /\ snd (redaxios server_404 (VObj []) (VStr "/posts/99999") VUndefined
              (VStr "get") VUndefined)
       = Normal (if truthy (VBool false) then Fulfilled (VObj response)
                 else Rejected (VObj response)).
Proof.
  do 5 (split; [reflexivity|]).
  apply (status_settlement server_404 (VObj []) (VStr "/posts/99999") VUndefined
           (VStr "get") VUndefined 0 (VStr "/posts/99999") get_init
           (raw 404 "Not Found") (Fulfilled (VStr "Not Found")) (VBool false)
           eq_refl eq_refl eq_refl eq_refl eq_refl).
Defined.

(** The two examples of C6, evaluated. *)
Example status_404_rejects :
  match snd (redaxios server_404 (VObj []) (VStr "/posts/99999") VUndefined
               (VStr "get") VUndefined) with
  | Normal (Rejected response) => prop response "status" = VNum 404
  | _ => False
  end.
Proof. reflexivity. Qed.

Example status_404_validated_resolves :
  match snd (redaxios server_404 (VObj []) (VStr "/posts/99999")
               (VObj [("validateStatus", VFun 2)]) (VStr "get") VUndefined) with
  | Normal (Fulfilled response) => prop response "status" = VNum 404
  | _ => False
  end.
Proof. reflexivity. Qed.

(** *** C8, C10: witnesses and examples *)

Lemma query_appended_witness :
  fst (redaxios server_200 (VObj []) (VStr "/search?p=1") q_x (VStr "get") VUndefined)
  = [(VFun 0, VStr "/search?p=1&q=x", get_init)]
  /\ truthy (prop (resolve (VObj []) (call_config (VStr "/search?p=1") q_x)) "params") = true
  /\ exists composed q,
    compose_base (resolve (VObj []) (call_config (VStr "/search?p=1") q_x))
      (call_url (VStr "/search?p=1") q_x) = Normal (VStr composed)
    /\ VStr "/search?p=1&q=x"
       = VStr (composed ^^ (if contains_char "?" composed then "&" else "?") ^^ q)
    /\ (if truthy (prop (resolve (VObj []) (call_config (VStr "/search?p=1") q_x))
                     "paramsSerializer")
        then exists r,
          apply server_200
            (prop (resolve (VObj []) (call_config (VStr "/search?p=1") q_x)) "paramsSerializer")
            [prop (resolve (VObj []) (call_config (VStr "/search?p=1") q_x)) "params"]
          = Normal r
          /\ q = ToString r
        else URLSearchParams_toString server_200
               (prop (resolve (VObj []) (call_config (VStr "/search?p=1") q_x)) "params")
             = Normal q).
Proof.
  split; [reflexivity|]. split; [reflexivity|].
  apply (query_appended server_200 (VObj []) (VStr "/search?p=1") q_x (VStr "get")
           VUndefined (VFun 0) (VStr "/search?p=1&q=x") get_init eq_refl eq_refl).
Defined.

(** The two examples of C8, evaluated. *)
Example search_query :
  dispatched_urls (redaxios server_200 (VObj []) (VStr "/search") q_x (VStr "get") VUndefined)
  = [VStr "/search?q=x"]
  /\ dispatched_urls
       (redaxios server_200 (VObj []) (VStr "/search?p=1") q_x (VStr "get") VUndefined)
     = [VStr "/search?p=1&q=x"].
Proof. split; reflexivity. Qed.

Lemma config_first_argument_witness :
  (typeof config_posts_1 =? "string") = false
  /\ (forall c', redaxios server_200 (VObj []) config_posts_1 config_ignored
                   VUndefined VUndefined
                 = redaxios server_200 (VObj []) config_posts_1 c' VUndefined VUndefined)
  /\ (forall s, prop config_posts_1 "url" = VStr s ->
                redaxios server_200 (VObj []) config_posts_1 config_ignored
                  VUndefined VUndefined
                = redaxios server_200 (VObj []) (VStr s) config_posts_1
                    VUndefined VUndefined)
  /\ (truthy (prop config_posts_1 "url") = false ->
      redaxios server_200 (VObj []) config_posts_1 config_ignored VUndefined VUndefined
      = redaxios server_200 (VObj []) (VStr "") config_posts_1 VUndefined VUndefined)
  /\ (forall f url init,
        fst (redaxios server_200 (VObj []) config_posts_1 config_ignored
               VUndefined VUndefined) = [(f, url, init)] ->
        exists composed,
          compose_base (resolve (VObj []) config_posts_1)
            (if truthy (prop config_posts_1 "url")
             then prop config_posts_1 "url" else VStr "")
          = Normal composed
          /\ compose_query server_200 (resolve (VObj []) config_posts_1) composed
             = Normal url)
  /\ (forall f url init,
        fst (redaxios server_200 (VObj []) config_posts_1 config_ignored
               VUndefined VUndefined) = [(f, url, init)] ->
        truthy (prop (resolve (VObj []) config_posts_1) "baseURL") = false ->
        truthy (prop (resolve (VObj []) config_posts_1) "params") = false ->
        url = if truthy (prop config_posts_1 "url")
              then prop config_posts_1 "url" else VStr "").
Proof.
  split; [reflexivity|].
  apply (config_first_argument server_200 (VObj []) config_posts_1 config_ignored
           VUndefined VUndefined eq_refl).
Defined.

Example config_first_argument_example :
  dispatched_urls
    (redaxios server_200 (VObj []) config_posts_1 config_ignored VUndefined VUndefined)
  = [VStr "/posts/1"]
  /\ dispatched_urls
       (redaxios server_200 (VObj []) (VObj [("method", VStr "get")]) config_ignored
          VUndefined VUndefined)
     = [VStr ""].
Proof. split; reflexivity. Qed.

(** The scenarios of the specification: [get("/posts/1")] against a stub
    answering 200 with [{"id":1}], and what [post("/posts", {title: "t"})]
    sends. *)
Example get_posts_1 :
  snd (Methods.get (server 200 "OK" json_id_1) VUndefined (VStr "/posts/1") VUndefined)
  = Normal (Fulfilled (VObj
      [("config", VObj []); ("status", VNum 200); ("statusText", VStr "OK");
       ("ok", VBool true); ("body", VObj [("locked", VBool false)]);
       ("bodyUsed", VBool false); ("data", VObj [("id", VNum 1)])])).
Proof. reflexivity. Qed.

Example post_title :
  fst (Methods.post server_200 VUndefined (VStr "/posts") (VObj [("title", VStr "t")])
         VUndefined)
  = [(VFun 0, VStr "/posts",
      VObj [("method", VStr "POST"); ("body", VStr json_title_t);
            ("headers", VObj [("content-type", VStr "application/json")]);
            ("credentials", VUndefined)])].
Proof. reflexivity. Qed.

(** *** C7: the base URL *)

Lemma contains_char_app c s t :
  contains_char c (s ^^ t) = contains_char c s || contains_char c t.
Proof.
  induction s as [|a s IH]; simpl; [reflexivity|].
  now rewrite IH, orb_assoc.
Qed.

(** A replacement text without [$] is inserted as it is. *)
Lemma GetSubstitution_plain matched rest r :
  contains_char "$" r = false -> GetSubstitution matched rest r = r.
Proof.
  induction r as [|a r IH]; simpl; [reflexivity|].
  intros H. apply orb_false_elim in H. destruct H as [Ha Hr].
  rewrite Ha. now rewrite IH.
Qed.

(** On one line, the lookahead sees a [//] anywhere. *)
Lemma lookahead_one_line url :
  no_line_terminator url = true -> lookahead_dslash url = contains_dslash url.
Proof.
  induction url as [|a t IH]; simpl; [reflexivity|].
  intros H. apply andb_prop in H. destruct H as [Ha Ht].
  destruct t as [|b t']; [reflexivity|].
  destruct ((a =? "/")%char && (b =? "/")%char); [reflexivity|].
  apply negb_true_iff in Ha. rewrite Ha. simpl orb. now apply IH.
Qed.

(** The rule of C7 holds for a base URL without [$] and a URL without a
    line terminator. *)
Lemma compose_base_plain options baseURL url :
  prop options "baseURL" = VStr baseURL ->
  baseURL <> "" ->
  contains_char "$" baseURL = false ->
  no_line_terminator url = true ->
  compose_base options (VStr url) = Normal (VStr (spec_base_url baseURL url)).
Proof.
  intros Hb Hne Hd Hl. unfold compose_base. rewrite Hb. simpl truthy.
  assert (E : (baseURL =? "") = false) by now apply String.eqb_neq.
  rewrite E. simpl negb. cbv iota. unfold replace_base, spec_base_url. simpl ToString.
  rewrite (lookahead_one_line _ Hl).
  destruct (contains_dslash url); [reflexivity|].
  assert (Hp : forall m r, GetSubstitution m r (baseURL ^^ "/") = baseURL ^^ "/").
  { intros m r. apply GetSubstitution_plain.
    rewrite contains_char_app, Hd. reflexivity. }
  assert (A : forall x y z, (x ^^ y) ^^ z = x ^^ y ^^ z).
  { intros x y z. induction x as [|c x IHx]; simpl; congruence. }
  destruct url as [|c rest]; simpl strip_slash.
  - now rewrite Hp, A.
  - destruct c as [[] [] [] [] [] [] [] []]; rewrite Hp, A; reflexivity.
Qed.

(** C7, the example of the claim: [https://api.example] and [/posts]; an
    absolute URL is left alone. *)
Example base_url_examples :
  dispatched_urls
    (redaxios server_200 (VObj only_baseURL) (VStr "/posts") VUndefined (VStr "get") VUndefined)
  = [VStr "https://api.example/posts"]
  /\ dispatched_urls
       (redaxios server_200 (VObj only_baseURL) (VStr "https://other.example/posts")
          VUndefined (VStr "get") VUndefined)
     = [VStr "https://other.example/posts"].
Proof. split; reflexivity. Qed.

(** C7, failing input: the base URL is passed to [String.prototype.replace]
    as a replacement pattern, so the [$&] in [https://api.example/$&] is
    expanded to the matched leading slash; the claim's URL is
    [https://api.example/$&/posts]. *)
Lemma base_url_pattern_expanded :
  dispatched_urls
    (redaxios server_200 (VObj [("baseURL", VStr "https://api.example/$&")])
       (VStr "/posts") VUndefined (VStr "get") VUndefined)
  = [VStr "https://api.example///posts"]
  /\ spec_base_url "https://api.example/$&" "/posts" = "https://api.example/$&/posts".
Proof. split; reflexivity. Qed.

(** A [//] behind a line terminator is not seen by the lookahead, [.]
    matching no line terminator: the base URL is prefixed to a URL that
    contains [//]. *)
Lemma base_url_second_line :
  contains_dslash ("a" ^^ String "010" "//b") = true
  /\ dispatched_urls
       (redaxios server_200 (VObj only_baseURL) (VStr ("a" ^^ String "010" "//b"))
          VUndefined (VStr "get") VUndefined)
     = [VStr ("https://api.example/a" ^^ String "010" "//b")].
Proof. split; reflexivity. Qed.

End Request.

(** * Further properties *)

(** ** deepMerge: keys, precedence, identities *)

Module MergeLaws.

Lemma has_key_In (o : obj) k : has_key k o = true -> In k (keys o).
Proof.
  unfold has_key. destruct (lookup k o) eqn:E; [|discriminate].
  intros _. apply lookup_Some_In in E. apply (in_map fst) in E. exact E.
Qed.

Lemma In_keys_set_prop (o : obj) k v x :
  In x (keys (set_prop o k v)) <-> In x (keys o) \/ x = k.
Proof.
  rewrite keys_set_prop. destruct (has_key k o) eqn:E.
  - split; [tauto|]. intros [H| ->]; [exact H|]. now apply has_key_In.
  - rewrite in_app_iff. simpl. intuition.
Qed.

Section Keys.

Variable lowerCase : bool.
#[local] Abbreviation fk := (fold_key lowerCase).

Lemma In_keys_put_all es : forall out x,
  In x (keys (put_all lowerCase es out))
  <-> In x (keys out) \/ In x (map fk (keys es)).
Proof.
  unfold put_all. induction es as [|[i v] es IH]; intros out x; simpl.
  - tauto.
  - rewrite IH, In_keys_set_prop. intuition.
Qed.

Lemma In_keys_merge_props es : forall out x,
  In x (keys (merge_props lowerCase es out))
  <-> In x (keys out) \/ In x (map fk (keys es)).
Proof.
  induction es as [|[i v] es IH]; intros out x; simpl.
  - tauto.
  - rewrite IH. unfold assign. rewrite In_keys_set_prop. intuition.
Qed.

Lemma NoDup_merge_props es : forall out,
  NoDup (keys out) -> NoDup (keys (merge_props lowerCase es out)).
Proof.
  induction es as [|[i v] es IH]; intros out H; simpl; auto.
  apply IH. unfold assign. now apply NoDup_set_prop.
Qed.

(** X1: for objects without a key named [__proto__], the merged object
    holds each key once, and its keys are the keys of the base and of the
    override, as the call folds them. *)
Theorem merged_keys (a b : obj) :
  proto_free (VObj a) = true -> proto_free (VObj b) = true ->
  exists o : obj,
    deepMerge (VObj a) (VObj b) lowerCase = VObj o
    /\ NoDup (keys o)
    /\ forall k, In k (keys o) <-> In k (map fk (keys a)) \/ In k (map fk (keys b)).
Proof.
  intros _ _.
  eexists. split; [apply deepMerge_obj; reflexivity|]. split.
  - apply NoDup_merge_props. rewrite copy_props_put_all.
    apply NoDup_put_all. constructor.
  - intros k. rewrite In_keys_merge_props, copy_props_put_all, In_keys_put_all.
    simpl. tauto.
Qed.

(** Assignments under names that are new and already folded append. *)
Lemma put_all_append es : forall out,
  NoDup (keys (out ++ es)) -> Forall (fun k => fk k = k) (keys es) ->
  put_all lowerCase es out = out ++ es.
Proof.
  unfold put_all. induction es as [|[i v] es IH]; intros out H Hf; simpl.
  - now rewrite app_nil_r.
  - inversion Hf as [|? ? Hi Hes]; subst. simpl in Hi. rewrite Hi.
    assert (Hnew : ~ In i (keys out)).
    { rewrite keys_app in H. simpl in H. apply NoDup_remove_2 in H.
      intros Hin. apply H. apply in_or_app. now left. }
    rewrite set_prop_fresh by assumption.
    rewrite IH; [now rewrite <- app_assoc | now rewrite <- app_assoc | assumption].
Qed.

End Keys.

Lemma copy_props_id (a : obj) :
  NoDup (keys a) -> copy_props false (VObj a) = a.
Proof.
  intros Ha. rewrite copy_props_put_all. simpl for_in.
  now rewrite (Merge.put_all_fresh a []).
Qed.

Lemma split_entry (b : obj) k v :
  NoDup (keys b) -> lookup k b = Some v ->
  exists b1 b2, b = b1 ++ (k, v) :: b2 /\ ~ In k (keys b1) /\ ~ In k (keys b2).
Proof.
  intros Hb Hk. apply lookup_Some_In in Hk.
  destruct (in_split _ _ Hk) as (b1 & b2 & ->). exists b1, b2.
  split; [reflexivity|]. unfold keys in Hb. rewrite map_app in Hb. simpl in Hb.
  pose proof (NoDup_remove_2 _ _ _ Hb) as Hn.
  split; intros Hin; apply Hn; apply in_or_app; [now left | now right].
Qed.

Lemma merged_absent (a b : obj) k :
  lookup k b = None -> lookup k (merge_props false b a) = lookup k a.
Proof.
  intros Hk. apply lookup_merge_props_other.
  simpl. rewrite map_id. now apply lookup_None_keys.
Qed.

Lemma merged_scalar (a b : obj) k v :
  NoDup (keys b) -> lookup k b = Some v -> is_plain_object v = false ->
  lookup k (merge_props false b a) = Some v.
Proof.
  intros Hb Hk Hv. destruct (split_entry b k v Hb Hk) as (b1 & b2 & -> & _ & H2).
  pose proof (lookup_merge_props_entry false b1 k v b2 a) as E.
  simpl in E. rewrite map_id in E. rewrite (E H2), Hv.
  now rewrite andb_false_r.
Qed.

(** X2: key by key, without case folding, for objects without a key
    named [__proto__]: a key the override does not hold keeps the base's
    value; a key the override holds with anything but a plain object (a
    scalar, [null], an array, a function) gets the override's value; so
    does a key the base does not hold. *)
Theorem call_site_precedence (a b : obj) :
  proto_free (VObj a) = true -> proto_free (VObj b) = true ->
  NoDup (keys a) -> NoDup (keys b) ->
  exists o : obj,
    deepMerge (VObj a) (VObj b) false = VObj o
    /\ (forall k, lookup k b = None -> lookup k o = lookup k a)
    /\ (forall k v, lookup k b = Some v -> is_plain_object v = false ->
                    lookup k o = Some v)
    /\ (forall k v, lookup k b = Some v -> lookup k a = None -> lookup k o = Some v).
Proof.
  intros _ _ Ha Hb. eexists. split; [apply deepMerge_obj; reflexivity|].
  rewrite (copy_props_id a Ha). split; [|split].
  - intros k Hk. now apply merged_absent.
  - intros k v Hk Hv. now apply merged_scalar.
  - intros k v Hk Hka.
    destruct (split_entry b k v Hb Hk) as (b1 & b2 & -> & H1 & H2).
    pose proof (lookup_merge_props_entry false b1 k v b2 a) as E.
    simpl in E. rewrite map_id in E. rewrite (E H2).
    assert (Hnone : lookup k (merge_props false b1 a) = None).
    { rewrite lookup_merge_props_other; [exact Hka|].
      simpl. now rewrite map_id. }
    unfold has_key. now rewrite Hnone.
Qed.

Lemma call_site_precedence_witness :
  proto_free (VObj Fixtures.instance_defaults) = true
  /\ proto_free (VObj Fixtures.call_options) = true
  /\ NoDup (keys Fixtures.instance_defaults) /\ NoDup (keys Fixtures.call_options)
  /\ exists o : obj,
    deepMerge (VObj Fixtures.instance_defaults) (VObj Fixtures.call_options) false = VObj o
    /\ (forall k, lookup k Fixtures.call_options = None ->
                  lookup k o = lookup k Fixtures.instance_defaults)
    /\ (forall k v, lookup k Fixtures.call_options = Some v ->
                    is_plain_object v = false -> lookup k o = Some v)
    /\ (forall k v, lookup k Fixtures.call_options = Some v ->
                    lookup k Fixtures.instance_defaults = None -> lookup k o = Some v).
Proof.
  assert (H1 : NoDup (keys Fixtures.instance_defaults)).
  { repeat constructor; simpl; intuition discriminate. }
  assert (H2 : NoDup (keys Fixtures.call_options)).
  { repeat constructor; simpl; intuition discriminate. }
  split; [reflexivity|]. split; [reflexivity|].
  split; [exact H1|]. split; [exact H2|].
  exact (call_site_precedence Fixtures.instance_defaults Fixtures.call_options
           eq_refl eq_refl H1 H2).
Defined.

(** X3: for an object without a key named [__proto__], an empty or
    [undefined] side is neutral: the merge returns the entries of the
    other side, in their order. *)
Theorem merge_with_nothing (a : obj) :
  proto_free (VObj a) = true ->
  NoDup (keys a) ->
  deepMerge (VObj a) (VObj []) false = VObj a
  /\ deepMerge (VObj a) VUndefined false = VObj a
  /\ deepMerge (VObj []) (VObj a) false = VObj a
  /\ deepMerge VUndefined (VObj a) false = VObj a.
Proof.
  intros _ Ha. pose proof (copy_props_id a Ha) as Ea.
  repeat split.
  - rewrite deepMerge_obj by reflexivity. simpl. now rewrite Ea.
  - simpl. now rewrite Ea.
  - rewrite deepMerge_obj by reflexivity.
    change (copy_props false (VObj [])) with (@nil (string * value)).
    now rewrite (Merge.merge_props_fresh a []).
  - rewrite deepMerge_obj by reflexivity.
    change (copy_props false VUndefined) with (@nil (string * value)).
    now rewrite (Merge.merge_props_fresh a []).
Qed.

Lemma merge_with_nothing_witness :
  proto_free (VObj Fixtures.instance_defaults) = true
  /\ NoDup (keys Fixtures.instance_defaults)
  /\ deepMerge (VObj Fixtures.instance_defaults) (VObj []) false
     = VObj Fixtures.instance_defaults
  /\ deepMerge (VObj Fixtures.instance_defaults) VUndefined false
     = VObj Fixtures.instance_defaults
  /\ deepMerge (VObj []) (VObj Fixtures.instance_defaults) false
     = VObj Fixtures.instance_defaults
  /\ deepMerge VUndefined (VObj Fixtures.instance_defaults) false
     = VObj Fixtures.instance_defaults.
Proof.
  assert (H1 : NoDup (keys Fixtures.instance_defaults)).
  { repeat constructor; simpl; intuition discriminate. }
  split; [reflexivity|]. split; [exact H1|].
  exact (merge_with_nothing Fixtures.instance_defaults eq_refl H1).
Defined.

(** X4: case folding is idempotent on objects that hold, at any depth,
    no key named [__proto__]: merging a folded result once more, with
    nothing, returns it as it is. *)
Theorem folding_idempotent (a b : obj) :
  proto_free (VObj a) = true -> proto_free (VObj b) = true ->
  deepMerge (deepMerge (VObj a) (VObj b) true) (VObj []) true
  = deepMerge (VObj a) (VObj b) true.
Proof.
  intros _ _.
  rewrite (deepMerge_obj true (VObj a) b) by reflexivity.
  set (o := merge_props true b (copy_props true (VObj a))).
  rewrite deepMerge_obj by reflexivity. simpl merge_props.
  rewrite copy_props_put_all. simpl for_in. f_equal.
  apply (put_all_append true o []).
  - apply NoDup_merge_props. rewrite copy_props_put_all.
    apply NoDup_put_all. constructor.
  - apply Forall_forall. intros k Hin. unfold o in Hin.
    rewrite In_keys_merge_props, copy_props_put_all, In_keys_put_all in Hin.
    simpl. destruct Hin as [[[]|Hin]|Hin]; apply in_map_iff in Hin;
      destruct Hin as (i & <- & _); apply toLowerCase_idem.
Qed.

Lemma merged_keys_witness :
  proto_free (VObj Samples.caller_props) = true
  /\ proto_free (VObj Samples.computed_props) = true
  /\ exists o : obj,
    deepMerge (VObj Samples.caller_props) (VObj Samples.computed_props) true = VObj o
    /\ NoDup (keys o)
    /\ forall k, In k (keys o)
                 <-> In k (map (fold_key true) (keys Samples.caller_props))
                     \/ In k (map (fold_key true) (keys Samples.computed_props)).
Proof.
  split; [reflexivity|]. split; [reflexivity|].
  exact (merged_keys true Samples.caller_props Samples.computed_props eq_refl eq_refl).
Defined.

Lemma folding_idempotent_witness :
  proto_free (VObj Samples.caller_props) = true
  /\ proto_free (VObj Samples.computed_props) = true
  /\ deepMerge (deepMerge (VObj Samples.caller_props) (VObj Samples.computed_props) true)
       (VObj []) true
     = deepMerge (VObj Samples.caller_props) (VObj Samples.computed_props) true.
Proof.
  split; [reflexivity|]. split; [reflexivity|].
  exact (folding_idempotent Samples.caller_props Samples.computed_props eq_refl eq_refl).
Defined.

End MergeLaws.

(** ** The pipeline: descriptor, transforms, transport, URL *)

Module PipelineLaws.

Lemma has_lower_toUpperCase s : has_lower_ascii (toUpperCase s) = false.
Proof.
  unfold toUpperCase. induction s as [|c s IH]; simpl; [reflexivity|].
  rewrite IH, orb_false_r.
  destruct c as [[] [] [] [] [] [] [] []]; reflexivity.
Qed.

Section Laws.

Variable env : Env.

Lemma RequestInit_inv options m data custom init :
  RequestInit options m data custom = Normal init ->
  exists verb,
    js_or m (js_or (prop options "method") (VStr "get")) = VStr verb
    /\ init = VObj [("method", VStr (toUpperCase verb));
                    ("body", data);
                    ("headers", finalize_headers options custom);
                    ("credentials", if truthy (prop options "withCredentials")
                                    then VStr "include" else VUndefined)].
Proof.
  unfold RequestInit.
  destruct (js_or m (js_or (prop options "method") (VStr "get")));
    try discriminate.
  intros [= <-]. eauto.
Qed.

(** X5: the descriptor handed to the transport has the four fields
    [method], [body], [headers], [credentials]; the method is
    [_method || options.method || 'get'] in upper case (no lower-case
    ASCII letter is left), and [credentials] is ['include'] when
    [withCredentials] is truthy and [undefined] otherwise. *)
Theorem request_descriptor defaults u c m d f url init :
  fst (redaxios env defaults u c m d) = [(f, url, init)] ->
  exists verb body headers,
    js_or m (js_or (prop (resolve defaults (call_config u c)) "method") (VStr "get"))
    = VStr verb
    /\ init = VObj [("method", VStr (toUpperCase verb));
                    ("body", body);
                    ("headers", headers);
                    ("credentials",
                     if truthy (prop (resolve defaults (call_config u c)) "withCredentials")
                     then VStr "include" else VUndefined)]
    /\ has_lower_ascii (toUpperCase verb) = false.
Proof.
  intros H. apply Request.dispatch_inv in H.
  destruct H as (rq & Hp & _ & _ & <-).
  apply Request.prepare_inv in Hp.
  destruct Hp as (body & encoded & custom & url1 & _ & _ & _ & _ & Hi & _).
  apply RequestInit_inv in Hi. destruct Hi as (verb & Hv & ->).
  exists verb, encoded. eexists. split; [exact Hv|]. split; [reflexivity|].
  apply has_lower_toUpperCase.
Qed.

Lemma run_transforms_app fs gs h d :
  run_transforms env (fs ++ gs) h d
  = bind (run_transforms env fs h d) (fun d' => run_transforms env gs h d').
Proof.
  revert d. induction fs as [|f fs IH]; intros d; simpl; [reflexivity|].
  destruct (apply env f [d; h]) as [r|e]; simpl; [apply IH | reflexivity].
Qed.

Lemma run_transforms_returned fs : forall rs h d,
  returned env h d fs rs -> run_transforms env fs h d = Normal (last_truthy d rs).
Proof.
  induction fs as [|f fs IH]; intros [|r rs] h d H; simpl in H; try contradiction.
  - reflexivity.
  - destruct H as [Hr H]. simpl. rewrite Hr. simpl. unfold js_or.
    rewrite (IH rs h _ H). reflexivity.
Qed.

(** X6: the transforms run in list order, each called with the configured
    headers and the body the ones before it left, and a truthy value a
    transform returns replaces the body: the body of the request is the
    last truthy value the transforms returned (the incoming body when
    none is truthy), sent as it is or, when it is JSON-encoded, as its
    JSON text. *)
Theorem transforms_in_order defaults u c m d f url init fs rs :
  fst (redaxios env defaults u c m d) = [(f, url, init)] ->
  prop (resolve defaults (call_config u c)) "transformRequest" = VArr fs ->
  returned env (prop (resolve defaults (call_config u c)) "headers")
    (if truthy d then d else prop (resolve defaults (call_config u c)) "data") fs rs ->
  (json_body (last_truthy
                (if truthy d then d else prop (resolve defaults (call_config u c)) "data")
                rs) = false ->
   prop init "body"
   = last_truthy (if truthy d then d else prop (resolve defaults (call_config u c)) "data")
       rs)
  /\ (json_body (last_truthy
                   (if truthy d then d
                    else prop (resolve defaults (call_config u c)) "data") rs) = true ->
      JSON_stringify env
        (last_truthy (if truthy d then d
                      else prop (resolve defaults (call_config u c)) "data") rs)
      = Normal (prop init "body")).
Proof.
  intros H Ht Hrs. apply Request.dispatch_inv in H.
  destruct H as (rq & Hp & _ & _ & <-).
  apply Request.prepare_inv in Hp.
  destruct Hp as (body & encoded & custom & url1 & Hb & He & _ & _ & Hi & _).
  apply Request.RequestInit_body in Hi. rewrite Hi.
  unfold transformRequest in Hb. rewrite Ht in Hb.
  change (js_or (VArr fs) (VArr [])) with (VArr fs) in Hb. cbv iota in Hb.
  unfold js_or in Hb.
  rewrite (run_transforms_returned fs rs _ _ Hrs) in Hb. injection Hb as <-.
  unfold encode_json in He. split; intros Hj; rewrite Hj in He.
  - now injection He as <- _.
  - destruct (JSON_stringify env _) as [t|e]; [|discriminate].
    simpl in He. now injection He as <- _.
Qed.

(** X7: a chain whose transforms all return a falsy value (the ones
    that only edit the headers return [undefined]) leaves the body as it
    is. *)
Theorem falsy_transforms_keep_body fs h d :
  Forall (fun f => exists r, apply env f [d; h] = Normal r /\ truthy r = false) fs ->
  run_transforms env fs h d = Normal d.
Proof.
  induction 1 as [|f fs (r & Hr & Hf) _ IH]; simpl; [reflexivity|].
  rewrite Hr. simpl. unfold js_or. now rewrite Hf.
Qed.

Lemma transformRequest_chain options fs d :
  prop options "transformRequest" = VArr fs ->
  transformRequest env options d = run_transforms env fs (prop options "headers") d.
Proof. intros H. unfold transformRequest. now rewrite H. Qed.

(** X8: a transform that throws makes the call throw that error
    synchronously: the transforms after it do not run and the transport
    is not invoked. *)
Theorem transform_failure_aborts defaults u c m d fs g gs d1 e :
  prop (resolve defaults (call_config u c)) "transformRequest" = VArr (fs ++ g :: gs) ->
  run_transforms env fs (prop (resolve defaults (call_config u c)) "headers")
    (js_or d (prop (resolve defaults (call_config u c)) "data")) = Normal d1 ->
  apply env g [d1; prop (resolve defaults (call_config u c)) "headers"] = Throw e ->
  redaxios env defaults u c m d = ([], Throw e).
Proof.
  intros Ht Hfs Hg. unfold redaxios, prepare.
  rewrite (transformRequest_chain _ _ _ Ht), run_transforms_app, Hfs.
  simpl. rewrite Hg. reflexivity.
Qed.

Lemma apply_async_not_function v args :
  (typeof v =? "function") = false -> apply_async env v args = Throw TypeError.
Proof. destruct v; try reflexivity; discriminate. Qed.

(** X14: a [responseType] for which the raw response object has no
    method (any name but those of the transport's decode methods) rejects
    the call with a [TypeError], before any validation of the status. *)
Theorem missing_decode_method defaults u c m d f url init (r : obj) :
  fst (redaxios env defaults u c m d) = [(VFun f, url, init)] ->
  call_async env f [url; init] = Normal (Fulfilled (VObj r)) ->
  is_stream (resolve defaults (call_config u c)) = false ->
  (typeof (prop (VObj r)
             (ToString (js_or (prop (resolve defaults (call_config u c))
                                 "responseType") (VStr "text"))))
   =? "function") = false ->
  snd (redaxios env defaults u c m d) = Normal (Rejected TypeError).
Proof.
  intros H Hcall Hs Hm.
  pose proof (Request.dispatch_inv _ _ _ _ _ _ _ _ _ H) as (rq & Hp & Hf & Hu & Hi).
  pose proof (Request.prepare_inv _ _ _ _ _ _ _ Hp)
    as (body & encoded & custom & url1 & _ & _ & _ & _ & _ & Ho & _).
  unfold redaxios. rewrite Hp, Hf, Hu, Hi, Hcall. simpl.
  rewrite Ho. unfold on_response. rewrite Hs.
  assert (E : decode env (resolve defaults (call_config u c)) (VObj r) = Throw TypeError).
  { unfold decode, member, bind. now apply apply_async_not_function. }
  now rewrite E.
Qed.

(** X15: a failure of the transport is the failure of the call, as it
    is: a rejection rejects the call with the same reason, a synchronous
    exception leaves the call as that exception. *)
Theorem transport_failure_unwrapped defaults u c m d f url init :
  fst (redaxios env defaults u c m d) = [(VFun f, url, init)] ->
  (forall e, call_async env f [url; init] = Normal (Rejected e) ->
             snd (redaxios env defaults u c m d) = Normal (Rejected e))
  /\ (forall e, call_async env f [url; init] = Throw e ->
                snd (redaxios env defaults u c m d) = Throw e).
Proof.
  intros H. apply Request.dispatch_inv in H.
  destruct H as (rq & Hp & Hf & Hu & Hi).
  unfold redaxios. rewrite Hp, Hf, Hu, Hi.
  split; intros e He; simpl; now rewrite He.
Qed.

(** X17: with [responseType: 'stream'] and a raw response object, the
    call resolves with a response whose [data] is the raw [body]; no
    decode method is called and the status is not validated. *)
Theorem stream_payload defaults u c m d f url init res :
  fst (redaxios env defaults u c m d) = [(VFun f, url, init)] ->
  call_async env f [url; init] = Normal (Fulfilled res) ->
  is_stream (resolve defaults (call_config u c)) = true ->
  res <> VUndefined -> res <> VNull ->
  exists p : obj,
    snd (redaxios env defaults u c m d) = Normal (Fulfilled (VObj p))
    /\ lookup "data" p = Some (prop res "body").
Proof.
  intros H Hcall Hs H1 H2.
  pose proof (Request.dispatch_inv _ _ _ _ _ _ _ _ _ H) as (rq & Hp & Hf & Hu & Hi).
  pose proof (Request.prepare_inv _ _ _ _ _ _ _ Hp)
    as (body & encoded & custom & url1 & _ & _ & _ & _ & _ & Ho & _).
  eexists. split.
  - unfold redaxios. rewrite Hp, Hf, Hu, Hi, Hcall. simpl.
    rewrite Ho. rewrite (Request.stream_resolves env _ _ _ Hs H1 H2). reflexivity.
  - apply lookup_set_prop_eq.
Qed.

(** X18: for a base URL without [$] and a string URL without line
    terminators, and no [params], the dispatched URL is the URL itself
    when it contains a double slash, and otherwise the base URL, a slash,
    and the URL without one leading slash. *)
Theorem base_url_rule defaults u c m d f url init baseURL :
  fst (redaxios env defaults (VStr u) c m d) = [(f, url, init)] ->
  prop (resolve defaults c) "baseURL" = VStr baseURL ->
  baseURL <> "" ->
  contains_char "$" baseURL = false ->
  no_line_terminator u = true ->
  truthy (prop (resolve defaults c) "params") = false ->
  url = VStr (spec_base_url baseURL u).
Proof.
  intros H Hb Hne Hd Hl Hparams. apply Request.dispatch_inv in H.
  destruct H as (rq & Hp & _ & <- & _).
  apply Request.prepare_inv in Hp.
  destruct Hp as (body & encoded & custom & url1 & _ & _ & Hbase & Hq & _).
  change (call_config (VStr u) c) with c in *.
  change (call_url (VStr u) c) with (VStr u) in *.
  rewrite (Request.compose_base_plain _ _ _ Hb Hne Hd Hl) in Hbase.
  injection Hbase as <-.
  unfold compose_query in Hq. rewrite Hparams in Hq. now injection Hq as <-.
Qed.

(** X19: without a base URL and without [params] the URL is dispatched
    as it came: the string first argument, whatever [url] the
    configuration names, or else the [url] field of the configuration
    given first. *)
Theorem url_verbatim defaults u c m d f url init :
  fst (redaxios env defaults u c m d) = [(f, url, init)] ->
  truthy (prop (resolve defaults (call_config u c)) "baseURL") = false ->
  truthy (prop (resolve defaults (call_config u c)) "params") = false ->
  url = call_url u c
  /\ (forall s, u = VStr s -> url = VStr s).
Proof.
  intros H Hb Hparams. apply Request.dispatch_inv in H.
  destruct H as (rq & Hp & _ & <- & _).
  apply Request.prepare_inv in Hp.
  destruct Hp as (body & encoded & custom & url1 & _ & _ & Hbase & Hq & _).
  unfold compose_base in Hbase. rewrite Hb in Hbase. injection Hbase as <-.
  unfold compose_query in Hq. rewrite Hparams in Hq. injection Hq as <-.
  split; [reflexivity|]. now intros s ->.
Qed.

End Laws.

End PipelineLaws.

(** ** The pipeline: headers *)

Module HeaderLaws.

Section Folded.

Variable lowerCase : bool.
#[local] Abbreviation fk := (fold_key lowerCase).

Lemma lookup_folded_None key es :
  lookup_folded lowerCase key es = None -> ~ In key (map fk (keys es)).
Proof.
  induction es as [|[i v] es IH]; simpl; [tauto|].
  destruct (lookup_folded lowerCase key es); [discriminate|].
  destruct (fk i =? key) eqn:E; [discriminate|].
  apply String.eqb_neq in E. intros _ [H|H]; [contradiction | now apply IH].
Qed.

(** The last override entry of a name, when it is no plain object,
    decides the merged value of the name. *)
Lemma lookup_merge_props_last es : forall out key v,
  lookup_folded lowerCase key es = Some v ->
  is_plain_object v = false ->
  lookup key (merge_props lowerCase es out) = Some v.
Proof.
  induction es as [|[i w] es IH]; intros out key v H Hv; simpl in *; [discriminate|].
  destruct (lookup_folded lowerCase key es) eqn:E.
  - injection H as ->. now apply IH.
  - destruct (fk i =? key) eqn:K; [|discriminate].
    injection H as ->. apply String.eqb_eq in K. subst key.
    rewrite lookup_merge_props_other by now apply lookup_folded_None.
    rewrite lookup_assign_eq, Hv. now rewrite andb_false_r.
Qed.

Lemma lookup_merge_props_absent es out key :
  lookup_folded lowerCase key es = None ->
  lookup key (merge_props lowerCase es out) = lookup key out.
Proof.
  intros H. apply lookup_merge_props_other. now apply lookup_folded_None.
Qed.

Lemma lookup_folded_set_prop_ne (o : obj) k v key :
  fk k <> key ->
  lookup_folded lowerCase key (set_prop o k v) = lookup_folded lowerCase key o.
Proof.
  intros Hne. apply String.eqb_neq in Hne.
  induction o as [|[k' v'] o IH]; simpl.
  - now rewrite Hne.
  - destruct (k' =? k) eqn:E; simpl.
    + apply String.eqb_eq in E. subst k'. now rewrite Hne.
    + now rewrite IH.
Qed.

Lemma lookup_folded_set_prop_eq (o : obj) k v :
  NoDup (map fk (keys o)) ->
  lookup_folded lowerCase (fk k) (set_prop o k v) = Some v.
Proof.
  induction o as [|[k' v'] o IH]; simpl; intros Hnd.
  - now rewrite String.eqb_refl.
  - inversion Hnd as [|? ? Hnot Hnd']; subst.
    destruct (k' =? k) eqn:E; simpl.
    + apply String.eqb_eq in E. subst k'.
      rewrite lookup_folded_notin by assumption. now rewrite String.eqb_refl.
    + now rewrite IH.
Qed.

End Folded.

Lemma finalize_lookup options custom key :
  isArray (prop options "headers") = false ->
  prop (finalize_headers options custom) key
  = get_own (merge_props true custom
               (copy_props true (js_or (prop options "headers") (VObj [])))) key.
Proof.
  intros H. unfold finalize_headers. rewrite deepMerge_obj; [reflexivity|].
  unfold js_or. now destruct (truthy (prop options "headers")).
Qed.

Section Laws.

Variable env : Env.

Lemma dispatch_headers defaults u c m d f url init :
  fst (redaxios env defaults u c m d) = [(f, url, init)] ->
  exists body,
    transformRequest env (resolve defaults (call_config u c))
      (js_or d (prop (resolve defaults (call_config u c)) "data")) = Normal body
    /\ prop init "headers"
       = finalize_headers (resolve defaults (call_config u c))
           (xsrf env (resolve defaults (call_config u c))
              (custom_headers (resolve defaults (call_config u c)) body))
    /\ (if json_body body
        then JSON_stringify env body = Normal (prop init "body")
        else prop init "body" = body).
Proof.
  intros H. apply Request.dispatch_inv in H.
  destruct H as (rq & Hp & _ & _ & <-).
  apply Request.prepare_inv in Hp.
  destruct Hp as (body & encoded & custom & url1 & Ht & He & _ & _ & Hi & _).
  apply PipelineLaws.RequestInit_inv in Hi. destruct Hi as (verb & _ & ->).
  exists body. split; [exact Ht|]. simpl prop. unfold get_own. simpl lookup.
  unfold custom_headers, encode_json in *. destruct (json_body body).
  - apply Request.bind_Normal in He. destruct He as (s & Hs & [= <- <-]).
    split; [reflexivity | exact Hs].
  - injection He as <- <-. split; reflexivity.
Qed.

Lemma xsrf_cases options h :
  xsrf env options h = h
  \/ exists token, xsrf env options h
                   = set_prop h (ToString (prop options "xsrfHeaderName")) token.
Proof.
  unfold xsrf.
  destruct (truthy (prop options "xsrfCookieName")
            && truthy (prop options "xsrfHeaderName")); [|now left].
  destruct (document env) as [doc|]; [|now left].
  destruct (RegExp_match doc (cookie doc) _) as [[m|]|]; try now left.
  destruct (decodeURIComponent doc (nth 2 m VUndefined)); [right; eauto | now left].
Qed.

Lemma computed_folded_NoDup options body :
  NoDup (map (fold_key true) (keys (custom_headers options body))).
Proof.
  unfold custom_headers, auth_headers.
  destruct (json_body body), (truthy (prop options "auth")); simpl;
    repeat constructor; simpl; intuition discriminate.
Qed.

Lemma computed_authorization options body :
  truthy (prop options "auth") = true ->
  lookup_folded true "authorization" (custom_headers options body)
  = Some (prop options "auth").
Proof.
  intros H. unfold custom_headers, auth_headers. rewrite H.
  destruct (json_body body); reflexivity.
Qed.

Lemma computed_content_type options body :
  lookup_folded true "content-type" (custom_headers options body)
  = if json_body body then Some (VStr "application/json") else None.
Proof.
  unfold custom_headers, auth_headers.
  destruct (json_body body), (truthy (prop options "auth")); reflexivity.
Qed.

(** A name the XSRF header does not fold to keeps its computed entry. *)
Lemma xsrf_keeps options h key :
  toLowerCase (ToString (prop options "xsrfHeaderName")) <> key ->
  lookup_folded true key (xsrf env options h) = lookup_folded true key h.
Proof.
  intros Hne. destruct (xsrf_cases options h) as [-> | (token & ->)]; [reflexivity|].
  now apply lookup_folded_set_prop_ne.
Qed.

(** X9: a configured [auth] (a string, as [Options] types it) is the
    [authorization] header of the request, whatever the caller's headers
    say under any spelling of that name. *)
Theorem auth_header_wins defaults u c m d f url init :
  fst (redaxios env defaults u c m d) = [(f, url, init)] ->
  truthy (prop (resolve defaults (call_config u c)) "auth") = true ->
  is_plain_object (prop (resolve defaults (call_config u c)) "auth") = false ->
  isArray (prop (resolve defaults (call_config u c)) "headers") = false ->
  toLowerCase (ToString (prop (resolve defaults (call_config u c)) "xsrfHeaderName"))
  <> "authorization" ->
  prop (prop init "headers") "authorization"
  = prop (resolve defaults (call_config u c)) "auth".
Proof.
  intros H Hauth Hplain Harr Hx.
  destruct (dispatch_headers _ _ _ _ _ _ _ _ H) as (body & _ & -> & _).
  rewrite finalize_lookup by assumption. unfold get_own.
  rewrite (lookup_merge_props_last true _ _ "authorization"
             (prop (resolve defaults (call_config u c)) "auth")); auto.
  rewrite xsrf_keeps by assumption. now apply computed_authorization.
Qed.

(** X10: a body that is JSON-encoded is sent as its serialization with
    the header [content-type: application/json], whatever content type
    the caller's headers name. *)
Theorem json_content_type defaults u c m d f url init body :
  fst (redaxios env defaults u c m d) = [(f, url, init)] ->
  transformRequest env (resolve defaults (call_config u c))
    (js_or d (prop (resolve defaults (call_config u c)) "data")) = Normal body ->
  json_body body = true ->
  isArray (prop (resolve defaults (call_config u c)) "headers") = false ->
  toLowerCase (ToString (prop (resolve defaults (call_config u c)) "xsrfHeaderName"))
  <> "content-type" ->
  prop (prop init "headers") "content-type" = VStr "application/json"
  /\ JSON_stringify env body = Normal (prop init "body").
Proof.
  intros H Ht Hj Harr Hx.
  destruct (dispatch_headers _ _ _ _ _ _ _ _ H) as (body' & Ht' & -> & Hb).
  rewrite Ht in Ht'. injection Ht' as <-. rewrite Hj in Hb. split; [|exact Hb].
  rewrite finalize_lookup by assumption. unfold get_own.
  rewrite (lookup_merge_props_last true _ _ "content-type" (VStr "application/json"));
    auto.
  rewrite xsrf_keeps by assumption. rewrite computed_content_type. now rewrite Hj.
Qed.

(** X11: a body that is not JSON-encoded (a string, a value with an
    [append] or a [text] method) is sent as it is, and the pipeline adds
    no content type: the header is what the caller's headers hold for the
    name [content-type] in any spelling (the last such entry), or
    nothing. *)
Theorem plain_body_untouched defaults u c m d f url init body :
  fst (redaxios env defaults u c m d) = [(f, url, init)] ->
  transformRequest env (resolve defaults (call_config u c))
    (js_or d (prop (resolve defaults (call_config u c)) "data")) = Normal body ->
  json_body body = false ->
  isArray (prop (resolve defaults (call_config u c)) "headers") = false ->
  toLowerCase (ToString (prop (resolve defaults (call_config u c)) "xsrfHeaderName"))
  <> "content-type" ->
  prop init "body" = body
  /\ prop (prop init "headers") "content-type"
     = match lookup_folded true "content-type"
               (for_in (js_or (prop (resolve defaults (call_config u c)) "headers")
                          (VObj []))) with
       | Some v => v
       | None => VUndefined
       end.
Proof.
  intros H Ht Hj Harr Hx.
  destruct (dispatch_headers _ _ _ _ _ _ _ _ H) as (body' & Ht' & -> & Hb).
  rewrite Ht in Ht'. injection Ht' as <-. rewrite Hj in Hb. split; [exact Hb|].
  rewrite finalize_lookup by assumption. unfold get_own.
  rewrite lookup_merge_props_absent.
  - rewrite copy_props_put_all, lookup_put_all. simpl lookup.
    now destruct (lookup_folded true "content-type" _).
  - rewrite xsrf_keeps by assumption. rewrite computed_content_type. now rewrite Hj.
Qed.

(** X12: the XSRF step, case by case.  When [xsrfCookieName] or
    [xsrfHeaderName] is falsy, when there is no document, when the cookie
    pattern does not match, and when the match or the decoding throws,
    the computed headers stay as they are.  When both names are truthy,
    the pattern matches and the matched value decodes, the step sets the
    configured header to the decoded value. *)
Theorem xsrf_outcomes options h :
  (truthy (prop options "xsrfCookieName") = false -> xsrf env options h = h)
  /\ (truthy (prop options "xsrfHeaderName") = false -> xsrf env options h = h)
  /\ (document env = None -> xsrf env options h = h)
  /\ (forall doc found,
        document env = Some doc ->
        RegExp_match doc (cookie doc)
          ("(^|; )" ^^ ToString (prop options "xsrfCookieName") ^^ "=([^;]*)") = found ->
        (forall e, found = Throw e -> xsrf env options h = h)
        /\ (found = Normal None -> xsrf env options h = h)
        /\ (forall m e, found = Normal (Some m) ->
                        decodeURIComponent doc (nth 2 m VUndefined) = Throw e ->
                        xsrf env options h = h)
        /\ (forall m token,
              truthy (prop options "xsrfCookieName") = true ->
              truthy (prop options "xsrfHeaderName") = true ->
              found = Normal (Some m) ->
              decodeURIComponent doc (nth 2 m VUndefined) = Normal token ->
              xsrf env options h
              = set_prop h (ToString (prop options "xsrfHeaderName")) token)).
Proof.
  unfold xsrf. split; [|split; [|split]].
  - now intros ->.
  - intros ->. now rewrite andb_false_r.
  - intros ->. now destruct (_ && _).
  - intros doc found -> <-.
    destruct (truthy (prop options "xsrfCookieName")
              && truthy (prop options "xsrfHeaderName")) eqn:B.
    + repeat split.
      * now intros e ->.
      * now intros ->.
      * now intros m e -> ->.
      * now intros m token _ _ -> ->.
    + repeat split; try reflexivity.
      intros m token H1 H2. rewrite H1, H2 in B. discriminate B.
Qed.

(** X13: when the XSRF cookie is read, its decoded value is the request
    header of the configured name (lower-cased), whatever the caller's
    headers and the other computed headers hold for that name. *)
Theorem xsrf_header_wins defaults u c m d f url init doc mt token :
  fst (redaxios env defaults u c m d) = [(f, url, init)] ->
  document env = Some doc ->
  truthy (prop (resolve defaults (call_config u c)) "xsrfCookieName") = true ->
  truthy (prop (resolve defaults (call_config u c)) "xsrfHeaderName") = true ->
  RegExp_match doc (cookie doc)
    ("(^|; )" ^^ ToString (prop (resolve defaults (call_config u c)) "xsrfCookieName")
     ^^ "=([^;]*)") = Normal (Some mt) ->
  decodeURIComponent doc (nth 2 mt VUndefined) = Normal token ->
  is_plain_object token = false ->
  isArray (prop (resolve defaults (call_config u c)) "headers") = false ->
  prop (prop init "headers")
    (toLowerCase (ToString (prop (resolve defaults (call_config u c)) "xsrfHeaderName")))
  = token.
Proof.
  intros H Hdoc Hc Hh Hm Hd Hplain Harr.
  destruct (dispatch_headers _ _ _ _ _ _ _ _ H) as (body & _ & -> & _).
  rewrite finalize_lookup by assumption. unfold get_own.
  assert (E : forall h, xsrf env (resolve defaults (call_config u c)) h
            = set_prop h
                (ToString (prop (resolve defaults (call_config u c)) "xsrfHeaderName"))
                token).
  { intros h. unfold xsrf. now rewrite Hc, Hh, Hdoc, Hm, Hd. }
  rewrite E.
  rewrite (lookup_merge_props_last true _ _ _ token); auto.
  apply (lookup_folded_set_prop_eq true). apply computed_folded_NoDup.
Qed.

End Laws.

End HeaderLaws.

(** ** The pipeline: transport choice and the response *)

Module ResponseLaws.

Section Laws.

Variable env : Env.


Lemma lookup_copy_raw (r : obj) : forall resp k,
  NoDup (keys r) ->
  lookup k (copy_raw (VObj r) resp)
  = match lookup k r with
    | Some v => if typeof v =? "function" then lookup k resp else Some v
    | None => lookup k resp
    end.
Proof.
  unfold copy_raw. simpl for_in.
  induction r as [|[i v] r IH]; intros resp k Hnd; simpl; [reflexivity|].
  inversion Hnd as [|? ? Hnot Hnd']; subst. rewrite IH by assumption.
  destruct (i =? k) eqn:E.
  - apply String.eqb_eq in E. subst i.
    apply lookup_None_keys in Hnot. rewrite Hnot.
    destruct (typeof v =? "function"); [reflexivity | apply lookup_set_prop_eq].
  - apply String.eqb_neq in E.
    assert (A : lookup k (if typeof v =? "function" then resp else set_prop resp i v)
                = lookup k resp).
    { destruct (typeof v =? "function"); [reflexivity | now apply lookup_set_prop_ne]. }
    simpl snd. simpl fst. now rewrite A.
Qed.

Lemma lookup_store_data_other decoded resp k :
  k <> "data" -> lookup k (store_data env decoded resp) = lookup k resp.
Proof.
  intros Hk. assert (Hk' : "data" <> k) by congruence.
  unfold store_data. destruct decoded as [x|e]; [|reflexivity].
  destruct (JSON_parse env x); now rewrite ?lookup_set_prop_ne by assumption.
Qed.

(** X20: the response a settled call carries (other than a stream):
    every property of the raw response that is no function, under its
    name and with its value ([data] apart); none of the raw response's
    methods; under [config] the call-site configuration; under [data]
    the decoded body, replaced by its JSON parse when that succeeds, and
    nothing when the decode promise rejected. *)
Theorem response_payload options c (r : obj) decoded ok :
  NoDup (keys r) ->
  is_stream options = false ->
  decode env options (VObj r) = Normal decoded ->
  success_predicate env options (VObj r) = Normal ok ->
  exists p : obj,
    on_response env options [("config", c)] (VObj r)
    = (if truthy ok then Fulfilled (VObj p) else Rejected (VObj p))
    /\ (forall k v, k <> "data" -> lookup k r = Some v ->
                    (typeof v =? "function") = false -> lookup k p = Some v)
    /\ (forall k g, k <> "data" -> k <> "config" -> lookup k r = Some (VFun g) ->
                    lookup k p = None)
    /\ (lookup "config" r = None -> lookup "config" p = Some c)
    /\ (forall x, decoded = Fulfilled x ->
                  lookup "data" p
                  = Some (match JSON_parse env x with
                          | Normal y => y
                          | Throw _ => x
                          end))
    /\ (forall e, decoded = Rejected e -> lookup "data" r = None ->
                  lookup "data" p = None).
Proof.
  intros Hnd Hs Hdec Hok.
  exists (store_data env decoded (copy_raw (VObj r) [("config", c)])).
  split; [|split; [|split; [|split; [|split]]]].
  - unfold on_response. rewrite Hs, Hdec. unfold validate. rewrite Hok.
    now destruct (truthy ok).
  - intros k v Hk Hr Hv.
    rewrite lookup_store_data_other, lookup_copy_raw, Hr, Hv by assumption.
    reflexivity.
  - intros k g Hk Hk' Hr.
    rewrite lookup_store_data_other, lookup_copy_raw, Hr by assumption.
    change (typeof (VFun g) =? "function") with true. cbv iota.
    change (lookup k [("config", c)])
      with (if "config" =? k then Some c else None).
    destruct ("config" =? k) eqn:E; [|reflexivity].
    apply String.eqb_eq in E. congruence.
  - intros Hr. rewrite lookup_store_data_other by discriminate.
    rewrite lookup_copy_raw, Hr by assumption. reflexivity.
  - intros x ->. simpl. destruct (JSON_parse env x); apply lookup_set_prop_eq.
  - intros e -> Hr. simpl. rewrite lookup_copy_raw, Hr by assumption. reflexivity.
Qed.

End Laws.

End ResponseLaws.

(** ** Witnesses *)

Module Witnesses.
Import Samples Fixtures.

Lemma request_descriptor_witness :
  fst (redaxios platform (VObj [("method", VStr "delete")]) (VStr "/posts")
         (VObj [("withCredentials", VBool true)]) (VStr "post") (VStr "hello"))
  = [(VFun 0, VStr "/posts", init_hello)]
  /\ exists verb body headers,
    js_or (VStr "post")
      (js_or (prop (resolve (VObj [("method", VStr "delete")])
                      (call_config (VStr "/posts") (VObj [("withCredentials", VBool true)])))
                "method") (VStr "get"))
    = VStr verb
    /\ init_hello
       = VObj [("method", VStr (toUpperCase verb));
               ("body", body);
               ("headers", headers);
               ("credentials",
                if truthy (prop (resolve (VObj [("method", VStr "delete")])
                                   (call_config (VStr "/posts")
                                      (VObj [("withCredentials", VBool true)])))
                             "withCredentials")
                then VStr "include" else VUndefined)]
    /\ has_lower_ascii (toUpperCase verb) = false.
Proof.
  split; [reflexivity|].
  exact (PipelineLaws.request_descriptor platform (VObj [("method", VStr "delete")])
           (VStr "/posts") (VObj [("withCredentials", VBool true)]) (VStr "post")
           (VStr "hello") (VFun 0) (VStr "/posts") init_hello eq_refl).
Defined.

Lemma transforms_in_order_witness :
  fst (redaxios platform wrap_defaults (VStr "/posts") VUndefined (VStr "post")
         (VStr "hello"))
  = [(VFun 0, VStr "/posts", wrapped_init)]
  /\ prop (resolve wrap_defaults (call_config (VStr "/posts") VUndefined))
        "transformRequest" = VArr [VFun 3; VFun 5; VFun 3]
  /\ returned platform
       (prop (resolve wrap_defaults (call_config (VStr "/posts") VUndefined)) "headers")
       (VStr "hello") [VFun 3; VFun 5; VFun 3] wrap_returns
  /\ last_truthy (VStr "hello") wrap_returns = VObj [("wrapped", VStr "hello")]
  /\ JSON_stringify platform (VObj [("wrapped", VStr "hello")])
     = Normal (prop wrapped_init "body").
Proof.
  assert (Hr : returned platform
                 (prop (resolve wrap_defaults (call_config (VStr "/posts") VUndefined))
                    "headers")
                 (VStr "hello") [VFun 3; VFun 5; VFun 3] wrap_returns)
    by (simpl; repeat split; reflexivity).
  split; [reflexivity|]. split; [reflexivity|]. split; [exact Hr|].
  split; [reflexivity|].
  exact (proj2 (PipelineLaws.transforms_in_order platform wrap_defaults (VStr "/posts")
                  VUndefined (VStr "post") (VStr "hello") (VFun 0) (VStr "/posts")
                  wrapped_init [VFun 3; VFun 5; VFun 3] wrap_returns
                  eq_refl eq_refl Hr) eq_refl).
Defined.

Lemma xsrf_outcomes_witness :
  document browser = Some browser_document
  /\ truthy (prop xsrf_defaults "xsrfCookieName") = true
  /\ truthy (prop xsrf_defaults "xsrfHeaderName") = true
  /\ RegExp_match browser_document (cookie browser_document)
       ("(^|; )" ^^ ToString (prop xsrf_defaults "xsrfCookieName") ^^ "=([^;]*)")
     = Normal (Some xsrf_match)
  /\ decodeURIComponent browser_document (nth 2 xsrf_match VUndefined)
     = Normal (VStr "abc 123")
  /\ xsrf browser xsrf_defaults [("content-type", VStr "application/json")]
     = [("content-type", VStr "application/json"); ("X-XSRF-TOKEN", VStr "abc 123")].
Proof.
  do 5 (split; [reflexivity|]).
  destruct (HeaderLaws.xsrf_outcomes browser xsrf_defaults
              [("content-type", VStr "application/json")]) as (_ & _ & _ & H).
  destruct (H browser_document _ eq_refl eq_refl) as (_ & _ & _ & H4).
  exact (H4 xsrf_match (VStr "abc 123") eq_refl eq_refl eq_refl eq_refl).
Defined.

Lemma falsy_transforms_keep_body_witness :
  Forall (fun f => exists r, apply platform f [VStr "hello"; VUndefined] = Normal r
                             /\ truthy r = false) [VFun 3; VFun 3]
  /\ run_transforms platform [VFun 3; VFun 3] VUndefined (VStr "hello")
     = Normal (VStr "hello").
Proof.
  assert (H : Forall (fun f => exists r,
                apply platform f [VStr "hello"; VUndefined] = Normal r
                /\ truthy r = false) [VFun 3; VFun 3]).
  { repeat constructor; exists VUndefined; split; reflexivity. }
  split; [exact H|].
  exact (PipelineLaws.falsy_transforms_keep_body platform [VFun 3; VFun 3]
           VUndefined (VStr "hello") H).
Defined.

Lemma transform_failure_aborts_witness :
  prop (resolve chain_defaults (call_config (VStr "/posts") VUndefined)) "transformRequest"
  = VArr ([VFun 3] ++ VFun 4 :: [VFun 5])
  /\ run_transforms platform [VFun 3]
       (prop (resolve chain_defaults (call_config (VStr "/posts") VUndefined)) "headers")
       (js_or (VStr "hello")
          (prop (resolve chain_defaults (call_config (VStr "/posts") VUndefined)) "data"))
     = Normal (VStr "hello")
  /\ apply platform (VFun 4)
       [VStr "hello";
        prop (resolve chain_defaults (call_config (VStr "/posts") VUndefined)) "headers"]
     = Throw (VStr "not serializable")
  /\ redaxios platform chain_defaults (VStr "/posts") VUndefined (VStr "post") (VStr "hello")
     = ([], Throw (VStr "not serializable")).
Proof.
  do 3 (split; [reflexivity|]).
  exact (PipelineLaws.transform_failure_aborts platform chain_defaults (VStr "/posts")
           VUndefined (VStr "post") (VStr "hello") [VFun 3] (VFun 4) [VFun 5]
           (VStr "hello") (VStr "not serializable") eq_refl eq_refl eq_refl).
Defined.

Lemma transport_failure_unwrapped_witness :
  fst (redaxios offline (VObj []) (VStr "/posts") VUndefined (VStr "get") VUndefined)
  = [(VFun 0, VStr "/posts", get_init)]
  /\ (forall e, call_async offline 0 [VStr "/posts"; get_init] = Normal (Rejected e) ->
                snd (redaxios offline (VObj []) (VStr "/posts") VUndefined (VStr "get")
                       VUndefined) = Normal (Rejected e))
  /\ (forall e, call_async offline 0 [VStr "/posts"; get_init] = Throw e ->
                snd (redaxios offline (VObj []) (VStr "/posts") VUndefined (VStr "get")
                       VUndefined) = Throw e).
Proof.
  split; [reflexivity|].
  exact (PipelineLaws.transport_failure_unwrapped offline (VObj []) (VStr "/posts")
           VUndefined (VStr "get") VUndefined 0 (VStr "/posts") get_init eq_refl).
Defined.

Lemma stream_payload_witness :
  fst (redaxios server_404 (VObj []) (VStr "/posts/99999") stream_config (VStr "get")
         VUndefined)
  = [(VFun 0, VStr "/posts/99999", get_init)]
  /\ call_async server_404 0 [VStr "/posts/99999"; get_init]
     = Normal (Fulfilled (raw 404 "Not Found"))
  /\ is_stream (resolve (VObj []) (call_config (VStr "/posts/99999") stream_config)) = true
  /\ raw 404 "Not Found" <> VUndefined
  /\ raw 404 "Not Found" <> VNull
  /\ exists p : obj,
    snd (redaxios server_404 (VObj []) (VStr "/posts/99999") stream_config (VStr "get")
           VUndefined) = Normal (Fulfilled (VObj p))
    /\ lookup "data" p = Some (prop (raw 404 "Not Found") "body").
Proof.
  assert (H1 : raw 404 "Not Found" <> VUndefined) by discriminate.
  assert (H2 : raw 404 "Not Found" <> VNull) by discriminate.
  do 3 (split; [reflexivity|]). split; [exact H1|]. split; [exact H2|].
  exact (PipelineLaws.stream_payload server_404 (VObj []) (VStr "/posts/99999")
           stream_config (VStr "get") VUndefined 0 (VStr "/posts/99999") get_init
           (raw 404 "Not Found") eq_refl eq_refl eq_refl H1 H2).
Defined.

Lemma missing_decode_method_witness :
  fst (redaxios server_404 (VObj []) (VStr "/posts/99999") json_config (VStr "get")
         VUndefined)
  = [(VFun 0, VStr "/posts/99999", get_init)]
  /\ call_async server_404 0 [VStr "/posts/99999"; get_init]
     = Normal (Fulfilled (VObj raw_404))
  /\ is_stream (resolve (VObj []) (call_config (VStr "/posts/99999") json_config)) = false
  /\ (typeof (prop (VObj raw_404)
                (ToString (js_or (prop (resolve (VObj [])
                                          (call_config (VStr "/posts/99999") json_config))
                                    "responseType") (VStr "text"))))
      =? "function") = false
  /\ snd (redaxios server_404 (VObj []) (VStr "/posts/99999") json_config (VStr "get")
            VUndefined) = Normal (Rejected TypeError).
Proof.
  do 4 (split; [reflexivity|]).
  exact (PipelineLaws.missing_decode_method server_404 (VObj []) (VStr "/posts/99999")
           json_config (VStr "get") VUndefined 0 (VStr "/posts/99999") get_init
           raw_404 eq_refl eq_refl eq_refl eq_refl).
Defined.

Lemma base_url_rule_witness :
  fst (redaxios server_200 (VObj only_baseURL) (VStr "/posts") VUndefined (VStr "get")
         VUndefined)
  = [(VFun 0, VStr "https://api.example/posts", get_init)]
  /\ prop (resolve (VObj only_baseURL) VUndefined) "baseURL" = VStr "https://api.example"
  /\ "https://api.example" <> ""
  /\ contains_char "$" "https://api.example" = false
  /\ no_line_terminator "/posts" = true
  /\ truthy (prop (resolve (VObj only_baseURL) VUndefined) "params") = false
  /\ VStr "https://api.example/posts"
     = VStr (spec_base_url "https://api.example" "/posts").
Proof.
  assert (Hne : "https://api.example" <> "") by discriminate.
  do 2 (split; [reflexivity|]). split; [exact Hne|]. do 3 (split; [reflexivity|]).
  exact (PipelineLaws.base_url_rule server_200 (VObj only_baseURL) "/posts" VUndefined
           (VStr "get") VUndefined (VFun 0) (VStr "https://api.example/posts") get_init
           "https://api.example" eq_refl eq_refl Hne eq_refl eq_refl eq_refl).
Defined.

Lemma url_verbatim_witness :
  fst (redaxios server_200 (VObj []) (VStr "/posts/1") other_url (VStr "get") VUndefined)
  = [(VFun 0, VStr "/posts/1", get_init)]
  /\ truthy (prop (resolve (VObj []) (call_config (VStr "/posts/1") other_url)) "baseURL")
     = false
  /\ truthy (prop (resolve (VObj []) (call_config (VStr "/posts/1") other_url)) "params")
     = false
  /\ VStr "/posts/1" = call_url (VStr "/posts/1") other_url
  /\ (forall s, VStr "/posts/1" = VStr s -> VStr "/posts/1" = VStr s).
Proof.
  do 3 (split; [reflexivity|]).
  exact (PipelineLaws.url_verbatim server_200 (VObj []) (VStr "/posts/1") other_url
           (VStr "get") VUndefined (VFun 0) (VStr "/posts/1") get_init
           eq_refl eq_refl eq_refl).
Defined.

Lemma auth_header_wins_witness :
  fst (redaxios platform auth_defaults (VStr "/posts") caller_auth (VStr "post")
         (VObj [("a", VNum 1)]))
  = [(VFun 0, VStr "/posts", auth_json_init)]
  /\ truthy (prop (resolve auth_defaults (call_config (VStr "/posts") caller_auth)) "auth")
     = true
  /\ is_plain_object
       (prop (resolve auth_defaults (call_config (VStr "/posts") caller_auth)) "auth")
     = false
  /\ isArray (prop (resolve auth_defaults (call_config (VStr "/posts") caller_auth))
                "headers") = false
  /\ toLowerCase
       (ToString (prop (resolve auth_defaults (call_config (VStr "/posts") caller_auth))
                    "xsrfHeaderName")) <> "authorization"
  /\ prop (prop auth_json_init "headers") "authorization"
     = prop (resolve auth_defaults (call_config (VStr "/posts") caller_auth)) "auth".
Proof.
  assert (Hx : toLowerCase
                 (ToString (prop (resolve auth_defaults
                                    (call_config (VStr "/posts") caller_auth))
                              "xsrfHeaderName")) <> "authorization")
    by (vm_compute; discriminate).
  do 4 (split; [reflexivity|]). split; [exact Hx|].
  exact (HeaderLaws.auth_header_wins platform auth_defaults (VStr "/posts") caller_auth
           (VStr "post") (VObj [("a", VNum 1)]) (VFun 0) (VStr "/posts") auth_json_init
           eq_refl eq_refl eq_refl eq_refl Hx).
Defined.

Lemma json_content_type_witness :
  fst (redaxios platform auth_defaults (VStr "/posts") caller_auth (VStr "post")
         (VObj [("a", VNum 1)]))
  = [(VFun 0, VStr "/posts", auth_json_init)]
  /\ transformRequest platform (resolve auth_defaults (call_config (VStr "/posts") caller_auth))
       (js_or (VObj [("a", VNum 1)])
          (prop (resolve auth_defaults (call_config (VStr "/posts") caller_auth)) "data"))
     = Normal (VObj [("a", VNum 1)])
  /\ json_body (VObj [("a", VNum 1)]) = true
  /\ isArray (prop (resolve auth_defaults (call_config (VStr "/posts") caller_auth))
                "headers") = false
  /\ toLowerCase
       (ToString (prop (resolve auth_defaults (call_config (VStr "/posts") caller_auth))
                    "xsrfHeaderName")) <> "content-type"
  /\ prop (prop auth_json_init "headers") "content-type" = VStr "application/json"
  /\ JSON_stringify platform (VObj [("a", VNum 1)]) = Normal (prop auth_json_init "body").
Proof.
  assert (Hx : toLowerCase
                 (ToString (prop (resolve auth_defaults
                                    (call_config (VStr "/posts") caller_auth))
                              "xsrfHeaderName")) <> "content-type")
    by (vm_compute; discriminate).
  do 4 (split; [reflexivity|]). split; [exact Hx|].
  exact (HeaderLaws.json_content_type platform auth_defaults (VStr "/posts") caller_auth
           (VStr "post") (VObj [("a", VNum 1)]) (VFun 0) (VStr "/posts") auth_json_init
           (VObj [("a", VNum 1)]) eq_refl eq_refl eq_refl eq_refl Hx).
Defined.

Lemma plain_body_untouched_witness :
  fst (redaxios platform auth_defaults (VStr "/posts") caller_auth (VStr "post")
         (VStr "a=1"))
  = [(VFun 0, VStr "/posts", auth_text_init)]
  /\ transformRequest platform (resolve auth_defaults (call_config (VStr "/posts") caller_auth))
       (js_or (VStr "a=1")
          (prop (resolve auth_defaults (call_config (VStr "/posts") caller_auth)) "data"))
     = Normal (VStr "a=1")
  /\ json_body (VStr "a=1") = false
  /\ isArray (prop (resolve auth_defaults (call_config (VStr "/posts") caller_auth))
                "headers") = false
  /\ toLowerCase
       (ToString (prop (resolve auth_defaults (call_config (VStr "/posts") caller_auth))
                    "xsrfHeaderName")) <> "content-type"
  /\ prop auth_text_init "body" = VStr "a=1"
  /\ prop (prop auth_text_init "headers") "content-type"
     = match lookup_folded true "content-type"
               (for_in (js_or (prop (resolve auth_defaults
                                       (call_config (VStr "/posts") caller_auth))
                                 "headers") (VObj []))) with
       | Some v => v
       | None => VUndefined
       end.
Proof.
  assert (Hx : toLowerCase
                 (ToString (prop (resolve auth_defaults
                                    (call_config (VStr "/posts") caller_auth))
                              "xsrfHeaderName")) <> "content-type")
    by (vm_compute; discriminate).
  do 4 (split; [reflexivity|]). split; [exact Hx|].
  exact (HeaderLaws.plain_body_untouched platform auth_defaults (VStr "/posts") caller_auth
           (VStr "post") (VStr "a=1") (VFun 0) (VStr "/posts") auth_text_init
           (VStr "a=1") eq_refl eq_refl eq_refl eq_refl Hx).
Defined.

Lemma xsrf_header_wins_witness :
  fst (redaxios browser xsrf_defaults (VStr "/posts") caller_token (VStr "post")
         (VObj [("a", VNum 1)]))
  = [(VFun 0, VStr "/posts", xsrf_init)]
  /\ document browser = Some browser_document
  /\ truthy (prop (resolve xsrf_defaults (call_config (VStr "/posts") caller_token))
               "xsrfCookieName") = true
  /\ truthy (prop (resolve xsrf_defaults (call_config (VStr "/posts") caller_token))
               "xsrfHeaderName") = true
  /\ RegExp_match browser_document (cookie browser_document)
       ("(^|; )"
        ^^ ToString (prop (resolve xsrf_defaults (call_config (VStr "/posts") caller_token))
                       "xsrfCookieName")
        ^^ "=([^;]*)")
     = Normal (Some xsrf_match)
  /\ decodeURIComponent browser_document (nth 2 xsrf_match VUndefined)
     = Normal (VStr "abc 123")
  /\ is_plain_object (VStr "abc 123") = false
  /\ isArray (prop (resolve xsrf_defaults (call_config (VStr "/posts") caller_token))
                "headers") = false
  /\ prop (prop xsrf_init "headers")
       (toLowerCase
          (ToString (prop (resolve xsrf_defaults (call_config (VStr "/posts") caller_token))
                       "xsrfHeaderName")))
     = VStr "abc 123".
Proof.
  do 8 (split; [reflexivity|]).
  exact (HeaderLaws.xsrf_header_wins browser xsrf_defaults (VStr "/posts") caller_token
           (VStr "post") (VObj [("a", VNum 1)]) (VFun 0) (VStr "/posts") xsrf_init
           browser_document xsrf_match (VStr "abc 123")
           eq_refl eq_refl eq_refl eq_refl eq_refl eq_refl eq_refl eq_refl).
Defined.


Lemma response_payload_witness :
  NoDup (keys raw_404)
  /\ is_stream (resolve (VObj []) VUndefined) = false
  /\ decode server_404 (resolve (VObj []) VUndefined) (VObj raw_404)
     = Normal (Fulfilled (VStr "Not Found"))
  /\ success_predicate server_404 (resolve (VObj []) VUndefined) (VObj raw_404)
     = Normal (VBool false)
  /\ exists p : obj,
    on_response server_404 (resolve (VObj []) VUndefined) [("config", VObj [])]
      (VObj raw_404)
    = (if truthy (VBool false) then Fulfilled (VObj p) else Rejected (VObj p))
    /\ (forall k v, k <> "data" -> lookup k raw_404 = Some v ->
                    (typeof v =? "function") = false -> lookup k p = Some v)
    /\ (forall k g, k <> "data" -> k <> "config" -> lookup k raw_404 = Some (VFun g) ->
                    lookup k p = None)
    /\ (lookup "config" raw_404 = None -> lookup "config" p = Some (VObj []))
    /\ (forall x, Fulfilled (VStr "Not Found") = Fulfilled x ->
                  lookup "data" p
                  = Some (match JSON_parse server_404 x with
                          | Normal y => y
                          | Throw _ => x
                          end))
    /\ (forall e, Fulfilled (VStr "Not Found") = Rejected e ->
                  lookup "data" raw_404 = None -> lookup "data" p = None).
Proof.
  assert (H1 : NoDup (keys raw_404)).
  { repeat constructor; simpl; intuition discriminate. }
  split; [exact H1|]. do 3 (split; [reflexivity|]).
  exact (ResponseLaws.response_payload server_404 (resolve (VObj []) VUndefined)
           (VObj []) raw_404 (Fulfilled (VStr "Not Found")) (VBool false)
           H1 eq_refl eq_refl eq_refl).
Defined.

End Witnesses.
